(** * DatabasePostgreSQLReplica and IInterpreterUnionOrSelectQuery

    A shallow embedding of
    - [src/Databases/PostgreSQL/DatabasePostgreSQLReplica.cpp]: the database
      engine that mirrors PostgreSQL tables, written as a class template over
      its base catalog ([DatabaseOrdinary] or [DatabaseAtomic]);
    - [src/Interpreters/IInterpreterUnionOrSelectQuery.h]: the constructor of
      the common base of the SELECT and UNION interpreters.

    Every member function of the engine is a computation over the object's
    own fields and an opaque environment that stands for everything the
    object calls into (the base catalog, the replication handler, the file
    system).  A computation returns, besides its outcome and the new state,
    the transcript of the calls it made, each with the result the callee
    gave. *)

From stdpp Require Import gmap strings list fin_maps.

Set Default Proof Using "Type".

(** ** Outcomes of a call *)

(** A C++ call returns a value, leaves by an exception, or has no defined
    behaviour (a null pointer is dereferenced). *)
Inductive Outcome (Exn A : Type) : Type :=
| Returned (a : A)
| Threw (e : Exn)
| Undefined.
Arguments Returned {Exn A} a.
Arguments Threw {Exn A} e.
Arguments Undefined {Exn A}.

Definition is_returned {Exn A} (r : Outcome Exn A) : bool :=
  match r with Returned _ => true | _ => false end.

(** ** Storages *)

Record StorageID := mkStorageID { id_database_name : string; id_table_name : string }.

(** Modelled from the spec: [StoragePostgreSQLReplica] is declared in
    Storages/PostgreSQL/StoragePostgreSQLReplica.h, which is not among the
    sources.  A handle has the identity of its table and is Pending or
    Loaded; it owns a nested storage exactly when it is Loaded.

    An [IStorage] is what a [StoragePtr] points to: such a handle, or a
    storage of another engine. *)
Inductive IStorage : Type :=
| ReplicaStorage (r : StoragePostgreSQLReplica)
| OtherStorage (engine_name : string) (table_id : StorageID)
with StoragePostgreSQLReplica : Type :=
| mkReplica (table_id : StorageID) (state : HandleState)
with HandleState : Type :=
| Pending
| Loaded (nested_storage : IStorage).

(** A [StoragePtr] may be null. *)
Abbreviation StoragePtr := (option IStorage).

(** [Tables] is [std::map<String, StoragePtr>]; the engine stores no null
    pointer in it. *)
Abbreviation Tables := (gmap string IStorage).

Definition replica_state (r : StoragePostgreSQLReplica) : HandleState :=
  match r with mkReplica _ s => s end.

(** [storage->as<StoragePostgreSQLReplica>()]: the object itself when it is of
    that class, a null pointer otherwise. *)
Definition as_StoragePostgreSQLReplica (s : IStorage) : option StoragePostgreSQLReplica :=
  match s with
  | ReplicaStorage r => Some r
  | OtherStorage _ _ => None
  end.

(** Modelled from the spec: [isNestedLoaded] of the missing class tells
    whether the handle is Loaded. *)
Definition isNestedLoaded (r : StoragePostgreSQLReplica) : bool :=
  match replica_state r with Loaded _ => true | Pending => false end.

(** Modelled from the spec: [tryGetNested] of the same missing class returns
    the nested storage if the handle is Loaded, else absent. *)
Definition tryGetNested (r : StoragePostgreSQLReplica) : StoragePtr :=
  match replica_state r with
  | Loaded nested_storage => Some nested_storage
  | Pending => None
  end.

(** What [getTablesIterator] lists for a storage of the table map: the nested
    storage of a handle that has one. *)
Definition nested_of (s : IStorage) : StoragePtr :=
  as_StoragePostgreSQLReplica s ≫= tryGetNested.

(** ** Contexts, settings, connection *)

Record QueryFactoriesInfo := mkQueryFactoriesInfo { storages : gset string }.

(** What the engine reads of a [Context]: its query context when
    [hasQueryContext()] holds, as the [getQueryFactoriesInfo()] of that query
    context; the insert block size of its settings; the macro expansion. *)
Record Context := mkContext {
  query_context : option QueryFactoriesInfo;
  max_insert_block_size : N;
  macros_expand : string → string
}.

Record SettingUInt64 := mkSettingUInt64 { changed : bool; value : N }.

Record PostgreSQLReplicaSettings := mkSettings {
  postgresql_max_block_size : SettingUInt64;
  postgresql_tables_list : string
}.

Record PostgreSQLConnection := mkConnection { conn_str : string }.

(** Modelled from the spec: [StoragePostgreSQLReplica::create] of the missing
    class makes a new handle for the table; given a null nested pointer, as
    the engine gives it, the handle is Pending. *)
Definition StoragePostgreSQLReplica_create
    (table_id : StorageID) (nested : StoragePtr) (context : Context) : IStorage :=
  ReplicaStorage
    (mkReplica table_id
       match nested with Some nested_storage => Loaded nested_storage | None => Pending end).

(** A [std::unordered_set<std::string>] as a loop over it sees it: its
    elements, each once, in the order of iteration, which is the container's
    own (it depends on the hash function and on how the set was filled) and
    is part of what the callee that made the set returns. *)
Record UnorderedSet := mkUnorderedSet {
  iteration : list string;
  iteration_NoDup : NoDup iteration
}.

(** The set filled with the strings of a list, duplicates dropped. *)
Definition unordered_set_of (l : list string) : UnorderedSet :=
  mkUnorderedSet (remove_dups l) (NoDup_remove_dups l).

(** The elements, whatever the order. *)
Definition contents (s : UnorderedSet) : gset string := list_to_set (iteration s).

(** The arguments of the constructor of [PostgreSQLReplicationHandler]. *)
Record HandlerArgs := mkHandlerArgs {
  arg_database_name : string;
  arg_conn_str : string;
  arg_metadata_path : string;
  arg_context : Context;
  arg_max_block_size : N;
  arg_tables_list : string
}.

Definition METADATA_SUFFIX : string := ".postgresql_replica_metadata".

(** ** The engine *)

Section Engine.

(** [Env] is the state of everything outside the object; [Exn] the exceptions
    its callees may throw; [Handler] the identity of a
    [PostgreSQLReplicationHandler] object; [AST] the [ASTPtr] of a query. *)
Context {Env Exn Handler AST : Type}.

(** A callee: it reads and changes the environment and returns or throws. *)
Definition Callee (X : Type) : Type := Env → Outcome Exn X * Env.

(** The base class [Base] of the template: the member functions the engine
    forwards to, and the getter of the metadata path. *)
Class UnderlyingCatalog := {
  Base_loadStoredObjects : Context → bool → bool → Callee unit;
  Base_tryGetTable : string → Context → Callee StoragePtr;
  Base_createTable : Context → string → StoragePtr → AST → Callee unit;
  Base_dropTable : Context → string → bool → Callee unit;
  Base_drop : Context → Callee unit;
  Base_getMetadataPath : Env → string
}.

(** [PostgreSQLReplicationHandler]: its constructor and the member functions
    the engine calls. *)
Class ReplicationHandler := {
  Handler_new : HandlerArgs → Callee Handler;
  Handler_fetchRequiredTables : Handler → PostgreSQLConnection → Callee UnorderedSet;
  Handler_addStorage : Handler → string → option StoragePostgreSQLReplica → Callee unit;
  Handler_startup : Handler → Callee unit;
  Handler_shutdown : Handler → Callee unit;
  Handler_shutdownFinal : Handler → Callee unit
}.

(** [Poco::File]: [exists()] and [remove(recursive)] on a path. *)
Class PocoFile := {
  File_exists : string → Callee bool;
  File_remove : string → bool → Callee unit
}.

Context `{!UnderlyingCatalog, !ReplicationHandler, !PocoFile}.

(** One entry of a transcript: the call, its arguments and what it gave.
    The two log macros are entries too. *)
Inductive Event : Type :=
| EBaseLoadStoredObjects (context : Context) (has_force_restore_data_flag force_attach : bool)
    (r : Outcome Exn unit)
| EBaseTryGetTable (name : string) (context : Context) (r : Outcome Exn StoragePtr)
| EBaseCreateTable (context : Context) (name : string) (table : StoragePtr) (query : AST)
    (r : Outcome Exn unit)
| EBaseDropTable (context : Context) (name : string) (no_delay : bool) (r : Outcome Exn unit)
| EBaseDrop (context : Context) (r : Outcome Exn unit)
| EHandlerNew (args : HandlerArgs) (r : Outcome Exn Handler)
| EFetchRequiredTables (h : Handler) (c : PostgreSQLConnection) (r : Outcome Exn UnorderedSet)
| EAddStorage (h : Handler) (name : string) (storage : option StoragePostgreSQLReplica)
    (r : Outcome Exn unit)
| EStartup (h : Handler) (r : Outcome Exn unit)
| EShutdown (h : Handler) (r : Outcome Exn unit)
| EShutdownFinal (h : Handler) (r : Outcome Exn unit)
| EFileExists (path : string) (r : Outcome Exn bool)
| EFileRemove (path : string) (recursive : bool) (r : Outcome Exn unit)
| ELogTrace (fmt : string) (arg : nat)
| ELogWarning (msg : string).

(** The data members of [DatabasePostgreSQLReplica<Base>] that its member
    functions read ([database_engine_define] is only ever set).  [log] is a
    [Poco::Logger *]: the name of the logger it points to, or nothing when
    the pointer was never given a value. *)
Record DatabasePostgreSQLReplica := mkDatabasePostgreSQLReplica {
  log : option string;
  global_context : Context;
  metadata_path : string;
  database_name : string;
  remote_database_name : string;
  connection : PostgreSQLConnection;
  settings : PostgreSQLReplicaSettings;
  replication_handler : option Handler;
  tables : Tables
}.

Definition set_replication_handler (h : option Handler) (d : DatabasePostgreSQLReplica)
    : DatabasePostgreSQLReplica :=
  mkDatabasePostgreSQLReplica
    (log d) (global_context d) (metadata_path d) (database_name d) (remote_database_name d)
    (connection d) (settings d) h (tables d).

Definition set_tables (t : Tables) (d : DatabasePostgreSQLReplica)
    : DatabasePostgreSQLReplica :=
  mkDatabasePostgreSQLReplica
    (log d) (global_context d) (metadata_path d) (database_name d) (remote_database_name d)
    (connection d) (settings d) (replication_handler d) t.

(** The constructor of [DatabasePostgreSQLReplica<DatabaseOrdinary>];
    [context] is what [context.getGlobalContext()] gives.  The handler
    pointer is null and the table map empty. *)
Definition DatabasePostgreSQLReplica_Ordinary
    (context : Context) (metadata_path_ database_name_ postgres_database_name : string)
    (connection_ : PostgreSQLConnection) (settings_ : PostgreSQLReplicaSettings)
    : DatabasePostgreSQLReplica :=
  mkDatabasePostgreSQLReplica
    (Some "PostgreSQLReplicaDatabaseEngine")
    context metadata_path_ database_name_ postgres_database_name connection_ settings_ None ∅.

(** The constructor of [DatabasePostgreSQLReplica<DatabaseAtomic>]: its
    initializer list has no entry for [log], a pointer that is then left
    without a value, and none for [database_name], which is then the empty
    string. *)
Definition DatabasePostgreSQLReplica_Atomic
    (context : Context) (metadata_path_ database_name_ postgres_database_name : string)
    (connection_ : PostgreSQLConnection) (settings_ : PostgreSQLReplicaSettings)
    : DatabasePostgreSQLReplica :=
  mkDatabasePostgreSQLReplica
    None context metadata_path_ "" postgres_database_name connection_ settings_ None ∅.

Record State := mkState { this : DatabasePostgreSQLReplica; env : Env }.

(** A member function run on a state: outcome, state after, transcript. *)
Definition M (A : Type) : Type := State → Outcome Exn A * State * list Event.

Definition ret {A} (a : A) : M A := λ st, (Returned a, st, []).

Definition bind {A B} (m : M A) (k : A → M B) : M B := λ st,
  match m st with
  | (Returned a, st1, t1) =>
      match k a st1 with (r, st2, t2) => (r, st2, t1 ++ t2) end
  | (Threw e, st1, t1) => (Threw e, st1, t1)
  | (Undefined, st1, t1) => (Undefined, st1, t1)
  end.

#[local] Notation "x <- m ;; k" := (bind m (λ x, k))
  (at level 100, m at next level, right associativity, only parsing).
#[local] Notation "m ;;; k" := (bind m (λ _, k))
  (at level 100, right associativity, only parsing).

(** A call to a callee, entered in the transcript with its result. *)
Definition call {X} (f : Callee X) (ev : Outcome Exn X → Event) : M X := λ st,
  match f (env st) with
  | (r, env') => (r, mkState (this st) env', [ev r])
  end.

Definition emit (e : Event) : M unit := λ st, (Returned tt, st, [e]).

(** [LOG_TRACE(log, ...)], [LOG_WARNING(log, ...)]: the macro calls a member
    function of the logger through [log]; with a pointer that has no value
    the behaviour is undefined. *)
Definition write_log (e : Event) : M unit := λ st,
  match log (this st) with
  | Some _ => (Returned tt, st, [e])
  | None => (Undefined, st, [])
  end.
Definition undefined {A} : M A := λ st, (Undefined, st, []).
Definition get_this : M DatabasePostgreSQLReplica := λ st, (Returned (this st), st, []).
Definition modify_this (f : DatabasePostgreSQLReplica → DatabasePostgreSQLReplica) : M unit :=
  λ st, (Returned tt, mkState (f (this st)) (env st), []).
Definition read_env {X} (f : Env → X) : M X := λ st, (Returned (f (env st)), st, []).

(** [for (const auto & x : xs) body] *)
Fixpoint for_each {X} (xs : list X) (body : X → M unit) : M unit :=
  match xs with
  | [] => ret tt
  | x :: rest => body x ;;; for_each rest body
  end.

(** The test the engine makes on a caller's context in [tryGetTable] and in
    [createTable]: the context has a query context, and the storages that
    query has used include ReplacingMergeTree. *)
Definition from_synchronization (context : Context) : bool :=
  match query_context context with
  | Some info => bool_decide ("ReplacingMergeTree" ∈ storages info)
  | None => false
  end.

(** [DatabasePostgreSQLReplica<Base>::tryGetTable] *)
Definition tryGetTable (name : string) (context : Context) : M StoragePtr :=
  if from_synchronization context then
    call (Base_tryGetTable name context) (EBaseTryGetTable name context)
  else
    d <- get_this ;;
    match tables d !! name with
    | Some table =>
        match as_StoragePostgreSQLReplica table with
        | Some r => if isNestedLoaded r then ret (Some table) else ret None
        | None => undefined
        end
    | None => ret None
    end.

(** [DatabasePostgreSQLReplica<Base>::getStorage] *)
Definition getStorage (name : string) : M StoragePtr :=
  d <- get_this ;;
  storage <- tryGetTable name (global_context d) ;;
  match storage with
  | Some s => ret (Some s)
  | None =>
      ret (Some (StoragePostgreSQLReplica_create
                   (mkStorageID (database_name d) name) None (global_context d)))
  end.

(** The arguments [startSynchronization] gives to the handler's constructor. *)
Definition handler_arguments (d : DatabasePostgreSQLReplica) : HandlerArgs :=
  mkHandlerArgs
    (remote_database_name d)
    (conn_str (connection d))
    (metadata_path d +:+ METADATA_SUFFIX)
    (global_context d)
    (if changed (postgresql_max_block_size (settings d))
     then value (postgresql_max_block_size (settings d))
     else max_insert_block_size (global_context d))
    (macros_expand (global_context d) (postgresql_tables_list (settings d))).

(** The body of the loop of [startSynchronization], for one table name. *)
Definition register_table (h : Handler) (table_name : string) : M unit :=
  storage <- getStorage table_name ;;
  match storage with
  | Some s =>
      let replica := as_StoragePostgreSQLReplica s in
      call (Handler_addStorage h table_name replica) (EAddStorage h table_name replica) ;;;
      modify_this (λ d, set_tables (<[table_name := s]> (tables d)) d)
  | None => ret tt
  end.

(** [DatabasePostgreSQLReplica<Base>::startSynchronization]; the names of the
    [std::unordered_set] are visited in its order of iteration. *)
Definition startSynchronization : M unit :=
  d <- get_this ;;
  h <- call (Handler_new (handler_arguments d)) (EHandlerNew (handler_arguments d)) ;;
  modify_this (set_replication_handler (Some h)) ;;;
  tables_to_replicate <-
    call (Handler_fetchRequiredTables h (connection d)) (EFetchRequiredTables h (connection d)) ;;
  for_each (iteration tables_to_replicate) (register_table h) ;;;
  d' <- get_this ;;
  write_log (ELogTrace "Loaded {} tables. Starting synchronization" (size (tables d'))) ;;;
  call (Handler_startup h) (EStartup h).

(** [DatabasePostgreSQLReplica<Base>::shutdown] *)
Definition shutdown : M unit :=
  d <- get_this ;;
  match replication_handler d with
  | Some h => call (Handler_shutdown h) (EShutdown h)
  | None => ret tt
  end.

(** [DatabasePostgreSQLReplica<Base>::loadStoredObjects] *)
Definition loadStoredObjects
    (context : Context) (has_force_restore_data_flag force_attach : bool) : M unit :=
  call (Base_loadStoredObjects context has_force_restore_data_flag force_attach)
       (EBaseLoadStoredObjects context has_force_restore_data_flag force_attach) ;;;
  startSynchronization.

(** [DatabasePostgreSQLReplica<Base>::createTable] *)
Definition createTable
    (context : Context) (name : string) (table : StoragePtr) (query : AST) : M unit :=
  if from_synchronization context then
    call (Base_createTable context name table query) (EBaseCreateTable context name table query)
  else
    write_log (ELogWarning
      "Create table query allowed only for ReplacingMergeTree engine and from synchronization thread").

(** [DatabasePostgreSQLReplica<Base>::dropTable] *)
Definition dropTable (context : Context) (name : string) (no_delay : bool) : M unit :=
  call (Base_dropTable context name no_delay) (EBaseDropTable context name no_delay).

(** [DatabasePostgreSQLReplica<Base>::drop] *)
Definition drop (context : Context) : M unit :=
  d <- get_this ;;
  match replication_handler d with
  | Some h =>
      call (Handler_shutdown h) (EShutdown h) ;;;
      call (Handler_shutdownFinal h) (EShutdownFinal h)
  | None => ret tt
  end ;;;
  base_path <- read_env Base_getMetadataPath ;;
  let metadata := base_path +:+ METADATA_SUFFIX in
  present <- call (File_exists metadata) (EFileExists metadata) ;;
  (if present then call (File_remove metadata false) (EFileRemove metadata false) else ret tt) ;;;
  call (Base_drop context) (EBaseDrop context).

(** The snapshot [DatabaseTablesSnapshotIterator] is built from. *)
Record DatabaseTablesSnapshotIterator := mkSnapshot {
  snapshot_tables : Tables;
  snapshot_database_name : string
}.

(** The body of the loop of [getTablesIterator], on one entry of [tables]. *)
Definition collect_nested (nested_tables : Outcome Exn Tables) (entry : string * IStorage)
    : Outcome Exn Tables :=
  match nested_tables with
  | Returned acc =>
      match as_StoragePostgreSQLReplica entry.2 with
      | Some r =>
          match tryGetNested r with
          | Some nested_storage => Returned (<[entry.1 := nested_storage]> acc)
          | None => Returned acc
          end
      | None => Undefined
      end
  | other => other
  end.

(** [DatabasePostgreSQLReplica<Base>::getTablesIterator]; it ignores both its
    arguments. *)
Definition getTablesIterator : M DatabaseTablesSnapshotIterator :=
  d <- get_this ;;
  match foldl collect_nested (Returned ∅) (map_to_list (tables d)) with
  | Returned nested_tables => ret (mkSnapshot nested_tables (database_name d))
  | Threw e => λ st, (Threw e, st, [])
  | Undefined => undefined
  end.

(** *** What the transcripts are read for *)

(** The outcome an entry records, without its value; a log entry returns. *)
Definition void {A} (r : Outcome Exn A) : Outcome Exn unit :=
  match r with
  | Returned _ => Returned tt
  | Threw e => Threw e
  | Undefined => Undefined
  end.

Definition event_outcome (ev : Event) : Outcome Exn unit :=
  match ev with
  | EBaseLoadStoredObjects _ _ _ r | EBaseCreateTable _ _ _ _ r | EBaseDropTable _ _ _ r
  | EBaseDrop _ r | EAddStorage _ _ _ r | EStartup _ r | EShutdown _ r | EShutdownFinal _ r
  | EFileRemove _ _ r => r
  | EBaseTryGetTable _ _ r => void r
  | EHandlerNew _ r => void r
  | EFetchRequiredTables _ _ r => void r
  | EFileExists _ r => void r
  | ELogTrace _ _ | ELogWarning _ => Returned tt
  end.

(** Calls on the metadata file. *)
Definition is_file_event (ev : Event) : bool :=
  match ev with EFileExists _ _ | EFileRemove _ _ _ => true | _ => false end.

(** Calls on the replication handler, its construction included. *)
Definition is_handler_event (ev : Event) : bool :=
  match ev with
  | EHandlerNew _ _ | EFetchRequiredTables _ _ _ | EAddStorage _ _ _ _
  | EStartup _ _ | EShutdown _ _ | EShutdownFinal _ _ => true
  | _ => false
  end.

Definition is_startup_event (ev : Event) : bool :=
  match ev with EStartup _ _ => true | _ => false end.

(** Every entry of the table map is a [StoragePostgreSQLReplica]. *)
Definition registry_of_handles (t : Tables) : Prop :=
  map_Forall (λ _ s, is_Some (as_StoragePostgreSQLReplica s)) t.

(** Following the spec: the Underlying Catalog's own [createTable], invoked
    directly on the state the object is in. *)
Definition underlying_createTable
    (context : Context) (name : string) (table : StoragePtr) (query : AST) : M unit := λ st,
  match Base_createTable context name table query (env st) with
  | (r, env') => (r, mkState (this st) env', [EBaseCreateTable context name table query r])
  end.

(** Two calls of [shutdown] in a row. *)
Definition shutdown_twice : M unit := shutdown ;;; shutdown.

(** A computation lets the failure of a callee through: an entry that did not
    return is the last of the transcript, and the computation ends the way
    that entry did. *)
Definition fail_stop {A} (m : M A) : Prop :=
  ∀ st r st' tr, m st = (r, st', tr) →
    ∀ i ev, tr !! i = Some ev → event_outcome ev ≠ Returned tt →
      void r = event_outcome ev ∧ S i = length tr.

(** Where the storage [s] that [startSynchronization] registers under [name]
    comes from, [t0] being the table map before and [tr] the transcript: it
    is a new Pending handle for that name; or the global context is the
    synchronization's and the base catalog's [tryGetTable] gave it; or the
    global context is not and it is the Loaded handle [t0] has under the
    name. *)
Definition handle_origin
    (d : DatabasePostgreSQLReplica) (name : string) (s : IStorage) (tr : list Event) : Prop :=
  s = StoragePostgreSQLReplica_create
        (mkStorageID (database_name d) name) None (global_context d)
  ∨ (from_synchronization (global_context d) = true ∧
     EBaseTryGetTable name (global_context d) (Returned (Some s)) ∈ tr)
  ∨ (from_synchronization (global_context d) = false ∧
     tables d !! name = Some s ∧
     ∃ r, s = ReplicaStorage r ∧ isNestedLoaded r = true).

(** *** The states an object goes through *)

(** The calls a client makes on the object. *)
Inductive MemberCall : Type :=
| CallLoadStoredObjects (context : Context) (has_force_restore_data_flag force_attach : bool)
| CallTryGetTable (name : string) (context : Context)
| CallCreateTable (context : Context) (name : string) (table : StoragePtr) (query : AST)
| CallDropTable (context : Context) (name : string) (no_delay : bool)
| CallDrop (context : Context)
| CallShutdown
| CallGetTablesIterator.

Definition state_after (c : MemberCall) (st : State) : State :=
  match c with
  | CallLoadStoredObjects context f1 f2 => (loadStoredObjects context f1 f2 st).1.2
  | CallTryGetTable name context => (tryGetTable name context st).1.2
  | CallCreateTable context name table query => (createTable context name table query st).1.2
  | CallDropTable context name no_delay => (dropTable context name no_delay st).1.2
  | CallDrop context => (drop context st).1.2
  | CallShutdown => (shutdown st).1.2
  | CallGetTablesIterator => (getTablesIterator st).1.2
  end.

(** Modelled from the spec: the replication handler, on its own thread, turns
    a Pending handle into a Loaded one that holds its nested storage; a handle
    never goes back. *)
Definition mark_loaded (name : string) (nested : IStorage) (d : DatabasePostgreSQLReplica)
    : DatabasePostgreSQLReplica :=
  match tables d !! name with
  | Some (ReplicaStorage (mkReplica table_id Pending)) =>
      set_tables
        (<[name := ReplicaStorage (mkReplica table_id (Loaded nested))]> (tables d)) d
  | _ => d
  end.

(** The states of an object built by one of the constructors with a global
    context that is not the synchronization's: member functions are called on
    it, the environment changes under it, handles get loaded. *)
Inductive reachable : State → Prop :=
| reachable_Ordinary context mp dn pdn c s e :
    from_synchronization context = false →
    reachable (mkState (DatabasePostgreSQLReplica_Ordinary context mp dn pdn c s) e)
| reachable_Atomic context mp dn pdn c s e :
    from_synchronization context = false →
    reachable (mkState (DatabasePostgreSQLReplica_Atomic context mp dn pdn c s) e)
| reachable_call c st : reachable st → reachable (state_after c st)
| reachable_outside st e : reachable st → reachable (mkState (this st) e)
| reachable_loaded st name nested :
    reachable st → reachable (mkState (mark_loaded name nested (this st)) (env st)).

(** What holds of the object in all these states. *)
Definition well_formed (d : DatabasePostgreSQLReplica) : Prop :=
  registry_of_handles (tables d) ∧ from_synchronization (global_context d) = false.

(** The entries the loop of [startSynchronization] makes for [name]. *)
Definition is_registration_of (h : Handler) (c : Context) (name : string) (ev : Event) : Prop :=
  (∃ r, ev = EBaseTryGetTable name c r) ∨ (∃ s r, ev = EAddStorage h name s r).

(** *** What the callees are asked, one call after the other *)

(** A property of a run, used to state what [drop] does once the handler is
    stopped, from the environment [e]: the metadata file is looked for at
    the base catalog's metadata path with the suffix; if it is there it is
    removed, not recursively; then the base catalog drops itself.  A call
    that does not return ends the run.  [tr], [r] and [st'] are the
    transcript, the outcome and the state after, [d] being the object. *)
Definition removes_metadata_then_drops
    (context : Context) (d : DatabasePostgreSQLReplica) (e : Env)
    (tr : list Event) (r : Outcome Exn unit) (st' : State) : Prop :=
  let metadata := Base_getMetadataPath e +:+ METADATA_SUFFIX in
  ∃ r3 e3,
    File_exists metadata e = (r3, e3) ∧
    match r3 with
    | Returned true =>
        ∃ r4 e4,
          File_remove metadata false e3 = (r4, e4) ∧
          match r4 with
          | Returned _ =>
              ∃ r5 e5,
                Base_drop context e4 = (r5, e5) ∧
                tr = [EFileExists metadata r3; EFileRemove metadata false r4;
                      EBaseDrop context r5] ∧
                r = r5 ∧ st' = mkState d e5
          | _ =>
              tr = [EFileExists metadata r3; EFileRemove metadata false r4] ∧
              r = r4 ∧ st' = mkState d e4
          end
    | Returned false =>
        ∃ r5 e5,
          Base_drop context e3 = (r5, e5) ∧
          tr = [EFileExists metadata r3; EBaseDrop context r5] ∧
          r = r5 ∧ st' = mkState d e5
    | Threw x => tr = [EFileExists metadata r3] ∧ r = Threw x ∧ st' = mkState d e3
    | Undefined => tr = [EFileExists metadata r3] ∧ r = Undefined ∧ st' = mkState d e3
    end.

(** The lookup [getStorage] makes for [name] with the global context [c], the
    table map being [t] and the environment [e], when it returns [found]:
    the base catalog's [tryGetTable] when [c] is the synchronization's, and
    otherwise the handle [t] has under the name if it is Loaded, with no
    call. *)
Definition looks_up
    (c : Context) (t : Tables) (name : string) (e : Env)
    (found : StoragePtr) (e' : Env) (tr : list Event) : Prop :=
  if from_synchronization c then
    Base_tryGetTable name c e = (Returned found, e') ∧
    tr = [EBaseTryGetTable name c (Returned found)]
  else
    e' = e ∧ tr = [] ∧
    match t !! name with
    | Some s =>
        ∃ rep, s = ReplicaStorage rep ∧
               found = if isNestedLoaded rep then Some s else None
    | None => found = None
    end.

(** A property of a run, used to state the registrations of a returned
    [startSynchronization], name after name: the storage for a name is the
    one the lookup found or, if it found none, a new Pending handle; it is
    given to the handler's [addStorage], which returns, and put into the
    table map under the name.  [t] and [e] are the table map and the
    environment before, [t'] and [e'] after, [tr] the transcript; [c] and
    [db] are the object's global context and database name. *)
Fixpoint registered_in_turn
    (h : Handler) (c : Context) (db : string) (names : list string)
    (t : Tables) (e : Env) (t' : Tables) (e' : Env) (tr : list Event) : Prop :=
  match names with
  | [] => t' = t ∧ e' = e ∧ tr = []
  | name :: rest =>
      ∃ found e1 tr1 e2 tr2,
        looks_up c t name e found e1 tr1 ∧
        let s := default (StoragePostgreSQLReplica_create (mkStorageID db name) None c)
                   found in
        Handler_addStorage h name (as_StoragePostgreSQLReplica s) e1 = (Returned tt, e2) ∧
        registered_in_turn h c db rest (<[name := s]> t) e2 t' e' tr2 ∧
        tr = tr1 ++ EAddStorage h name (as_StoragePostgreSQLReplica s) (Returned tt) :: tr2
  end.

(** The same on a new object: [addStorage] returns for each name in turn,
    given the new Pending handle of that name. *)
Fixpoint added_in_turn
    (h : Handler) (db : string) (names : list string) (e e' : Env) : Prop :=
  match names with
  | [] => e' = e
  | name :: rest =>
      ∃ e1,
        Handler_addStorage h name (Some (mkReplica (mkStorageID db name) Pending)) e
          = (Returned tt, e1) ∧
        added_in_turn h db rest e1 e'
  end.

(** *** What a call gives *)

(** How a call of a member function ends, without the value it returns. *)
Definition outcome_of (c : MemberCall) (st : State) : Outcome Exn unit :=
  match c with
  | CallLoadStoredObjects context f1 f2 => void (loadStoredObjects context f1 f2 st).1.1
  | CallTryGetTable name context => void (tryGetTable name context st).1.1
  | CallCreateTable context name table query =>
      void (createTable context name table query st).1.1
  | CallDropTable context name no_delay => void (dropTable context name no_delay st).1.1
  | CallDrop context => void (drop context st).1.1
  | CallShutdown => void (shutdown st).1.1
  | CallGetTablesIterator => void (getTablesIterator st).1.1
  end.

(** The transcript of a call of a member function. *)
Definition transcript_of (c : MemberCall) (st : State) : list Event :=
  match c with
  | CallLoadStoredObjects context f1 f2 => (loadStoredObjects context f1 f2 st).2
  | CallTryGetTable name context => (tryGetTable name context st).2
  | CallCreateTable context name table query => (createTable context name table query st).2
  | CallDropTable context name no_delay => (dropTable context name no_delay st).2
  | CallDrop context => (drop context st).2
  | CallShutdown => (shutdown st).2
  | CallGetTablesIterator => (getTablesIterator st).2
  end.

(** The handle [getStorage] makes for a name it finds no storage for. *)
Definition new_handle (d : DatabasePostgreSQLReplica) (name : string) : IStorage :=
  StoragePostgreSQLReplica_create
    (mkStorageID (database_name d) name) None (global_context d).

(** The entry of a successful [addStorage] for [name] with the handle of that
    name in the table map [t]. *)
Definition registration_entry (h : Handler) (t : Tables) (name : string) : Event :=
  EAddStorage h name (t !! name ≫= as_StoragePostgreSQLReplica) (Returned tt).

(** Does the entry come from a call on the handler that stops it? *)
Definition is_stop_event (ev : Event) : bool :=
  match ev with EShutdown _ _ | EShutdownFinal _ _ => true | _ => false end.

End Engine.

(** ** The interpreter base class *)

Module Interpreter.

(** [DataTypeUInt32] is the only data type the constructor uses. *)
Inductive DataType := DataTypeUInt32.

(** [createColumnConst(size, value)]: a constant column. *)
Record ColumnConst := mkColumnConst { const_size : N; const_value : N }.

Record ColumnWithTypeAndName := mkColumn {
  column : ColumnConst;
  type : DataType;
  name : string
}.

(** A [Block] is written with an initializer list of its columns. *)
Abbreviation Block := (list ColumnWithTypeAndName).

Definition createColumnConst (t : DataType) (size value : N) : ColumnConst :=
  mkColumnConst size value.

(** What the constructor reads and writes of a [Context]: the [max_threads]
    setting and the special scalars. *)
Record Context := mkContext {
  max_threads : N;
  special_scalars : gmap string Block
}.

(** Modelled from the spec: [Context::addSpecialScalar] is declared in
    Interpreters/Context.h, which is not among the sources; it puts the block
    into the context under the given name. *)
Definition addSpecialScalar (scalar_name : string) (block : Block) (c : Context) : Context :=
  mkContext (max_threads c) (<[scalar_name := block]> (special_scalars c)).

(** [Context::createCopy]: a context of its own with the same content. *)
Definition createCopy (c : Context) : Context := c.

(** The two optional [UInt32] members of [SelectQueryOptions] the constructor
    reads. *)
Record SelectQueryOptions := mkOptions {
  shard_num : option N;
  shard_count : option N
}.

Section Ctor.
Context {AST : Type}.

(** The data members of [IInterpreterUnionOrSelectQuery]. *)
Record IInterpreterUnionOrSelectQuery := mkInterpreter {
  query_ptr : AST;
  context : Context;
  result_header : Block;
  options : SelectQueryOptions;
  max_streams : N;
  settings_limit_offset_needed : bool;
  settings_limit_offset_done : bool;
  uses_view_source : bool
}.

(** The block both calls of [addSpecialScalar] are given, for one name and
    value. *)
Definition scalar_block (scalar_name : string) (v : N) : Block :=
  [mkColumn (createColumnConst DataTypeUInt32 1 v) DataTypeUInt32 scalar_name].

(** The constructor taking a [ContextMutablePtr]. *)
Definition new_with_mutable_context
    (query_ptr_ : AST) (context_ : Context) (options_ : SelectQueryOptions)
    : IInterpreterUnionOrSelectQuery :=
  let max_streams_ := max_threads context_ in
  let context1 :=
    match shard_num options_ with
    | Some n => addSpecialScalar "_shard_num" (scalar_block "_shard_num" n) context_
    | None => context_
    end in
  let context2 :=
    match shard_count options_ with
    | Some n => addSpecialScalar "_shard_count" (scalar_block "_shard_count" n) context1
    | None => context1
    end in
  mkInterpreter query_ptr_ context2 [] options_ max_streams_ false false false.

(** The constructor taking a [ContextPtr]: it delegates with a copy. *)
Definition new_with_context
    (query_ptr_ : AST) (context_ : Context) (options_ : SelectQueryOptions)
    : IInterpreterUnionOrSelectQuery :=
  new_with_mutable_context query_ptr_ (createCopy context_) options_.

(** [getSampleBlock], [getMaxStreams], [usesViewSource] *)
Definition getSampleBlock (i : IInterpreterUnionOrSelectQuery) : Block := result_header i.
Definition getMaxStreams (i : IInterpreterUnionOrSelectQuery) : N := max_streams i.
Definition usesViewSource (i : IInterpreterUnionOrSelectQuery) : bool := uses_view_source i.

End Ctor.

Arguments IInterpreterUnionOrSelectQuery : clear implicits.

End Interpreter.

(** ** A small catalog, handler and file system to run the engine on *)

Module Demo.

Record World := mkWorld {
  files : gset string;
  catalog : gmap string IStorage;
  remote_tables : list string;
  registered : list string;
  running : bool;
  startup_error : option string
}.

Definition ok {X} (x : X) (w : World) : Outcome string X * World := (Returned x, w).

#[export] Instance demo_catalog : @UnderlyingCatalog World string string := {|
  Base_loadStoredObjects _ _ _ := ok tt;
  Base_tryGetTable name _ w := (Returned (catalog w !! name), w);
  Base_createTable _ name table _ w :=
    match catalog w !! name, table with
    | Some _, _ => (Threw "TABLE_ALREADY_EXISTS", w)
    | None, Some s =>
        (Returned tt,
         mkWorld (files w) (<[name := s]> (catalog w)) (remote_tables w) (registered w)
                 (running w) (startup_error w))
    | None, None => (Threw "BAD_ARGUMENTS", w)
    end;
  Base_dropTable _ name _ w :=
    match catalog w !! name with
    | Some _ =>
        (Returned tt,
         mkWorld (files w) (delete name (catalog w)) (remote_tables w) (registered w)
                 (running w) (startup_error w))
    | None => (Threw "UNKNOWN_TABLE", w)
    end;
  Base_drop _ w :=
    (Returned tt,
     mkWorld (files w) ∅ (remote_tables w) (registered w) (running w) (startup_error w));
  Base_getMetadataPath _ := "/metadata/db"
|}.

#[export] Instance demo_handler : @ReplicationHandler World string nat := {|
  Handler_new _ := ok 1;
  Handler_fetchRequiredTables _ _ w := (Returned (unordered_set_of (remote_tables w)), w);
  Handler_addStorage _ name _ w :=
    (Returned tt,
     mkWorld (files w) (catalog w) (remote_tables w) (registered w ++ [name])
             (running w) (startup_error w));
  Handler_startup _ w :=
    match startup_error w with
    | Some e => (Threw e, w)
    | None =>
        (Returned tt,
         mkWorld (files w) (catalog w) (remote_tables w) (registered w) true (startup_error w))
    end;
  Handler_shutdown _ w :=
    (Returned tt,
     mkWorld (files w) (catalog w) (remote_tables w) (registered w) false (startup_error w));
  Handler_shutdownFinal _ w :=
    (Returned tt,
     mkWorld (files w) (catalog w) (remote_tables w) [] (running w) (startup_error w))
|}.

#[export] Instance demo_file : @PocoFile World string := {|
  File_exists path w := (Returned (bool_decide (path ∈ files w)), w);
  File_remove path _ w :=
    (Returned tt,
     mkWorld (files w ∖ {[path]}) (catalog w) (remote_tables w) (registered w)
             (running w) (startup_error w))
|}.

Definition plain_context : Context := mkContext None 1048576 (λ s, s).

Definition synchronization_context : Context :=
  mkContext (Some (mkQueryFactoriesInfo {["ReplacingMergeTree"]})) 1048576 (λ s, s).

Definition fresh : @DatabasePostgreSQLReplica nat :=
  DatabasePostgreSQLReplica_Ordinary plain_context "/metadata/db" "db" "postgres"
    (mkConnection "host=pg") (mkSettings (mkSettingUInt64 false 0) "orders,customers").

Definition loaded_orders : IStorage :=
  ReplicaStorage (mkReplica (mkStorageID "db" "orders")
                    (Loaded (OtherStorage "ReplacingMergeTree" (mkStorageID "db" "orders")))).

Definition pending_customers : IStorage :=
  ReplicaStorage (mkReplica (mkStorageID "db" "customers") Pending).

(** The object once synchronization has started and [orders] is loaded. *)
Definition started : @DatabasePostgreSQLReplica nat :=
  set_tables (<["orders" := loaded_orders]> (<["customers" := pending_customers]> ∅))
    (set_replication_handler (Some 1) fresh).

Definition world : World :=
  mkWorld {["/metadata/db.postgresql_replica_metadata"]} ∅ ["customers"; "orders"] [] false None.

Definition failing_world : World :=
  mkWorld ∅ ∅ ["orders"] [] false (Some "startup failed").

(** An object as the constructor for [DatabaseAtomic] leaves it. *)
Definition atomic : @DatabasePostgreSQLReplica nat :=
  DatabasePostgreSQLReplica_Atomic plain_context "/metadata/db" "db" "postgres"
    (mkConnection "host=pg") (mkSettings (mkSettingUInt64 false 0) "orders,customers").

(** The started object once the handler has registered the two tables, as
    [startSynchronization] leaves things on the small catalog. *)
Definition registered_world : World :=
  mkWorld {["/metadata/db.postgresql_replica_metadata"]} ∅ ["customers"; "orders"]
    ["customers"; "orders"] true None.

(** The same with [orders] in the base catalog. *)
Definition populated_world : World :=
  mkWorld {["/metadata/db.postgresql_replica_metadata"]}
    (<["orders" := OtherStorage "ReplacingMergeTree" (mkStorageID "db" "orders")]> ∅)
    ["customers"; "orders"] ["customers"; "orders"] true None.

(** What [drop] leaves of it. *)
Definition dropped_world : World :=
  mkWorld ({["/metadata/db.postgresql_replica_metadata"]}
             ∖ {["/metadata/db.postgresql_replica_metadata"]})
    ∅ ["customers"; "orders"] [] false None.

Definition fresh_state : @State World nat := mkState fresh world.
Definition populated_state : @State World nat := mkState started populated_world.
Definition atomic_state : @State World nat := mkState atomic world.
Definition running_state : @State World nat := mkState started registered_world.
Definition started_state : @State World nat := mkState started world.
Definition failing_state : @State World nat := mkState fresh failing_world.

(** An object whose global context is the synchronization's, over a catalog
    that has [orders] as a plain ReplacingMergeTree table. *)
Definition synchronizing : @DatabasePostgreSQLReplica nat :=
  DatabasePostgreSQLReplica_Ordinary synchronization_context "/metadata/db" "db" "postgres"
    (mkConnection "host=pg") (mkSettings (mkSettingUInt64 false 0) "orders").

Definition plain_orders : IStorage :=
  OtherStorage "ReplacingMergeTree" (mkStorageID "db" "orders").

Definition world_with_orders : World :=
  mkWorld ∅ (<["orders" := plain_orders]> ∅) ["orders"] [] false None.

Definition synchronizing_state : @State World nat := mkState synchronizing world_with_orders.

End Demo.

(** * Properties of the engine *)

Section EngineProperties.

Context {Env Exn Handler AST : Type}.
Context `{!@UnderlyingCatalog Env Exn AST, !@ReplicationHandler Env Exn Handler, !@PocoFile Env Exn}.

Implicit Types (st : @State Env Handler) (context : Context) (name : string).

#[local] Abbreviation Run := (@M Env Exn Handler AST) (only parsing).
#[local] Abbreviation Entry := (@Event Exn Handler AST) (only parsing).
#[local] Abbreviation Call := (@Callee Env Exn) (only parsing).

(** *** Running a member function by cases on what its callees give *)

Ltac unfold_run :=
  unfold drop, shutdown_twice, shutdown, createTable, dropTable, loadStoredObjects,
    underlying_createTable, tryGetTable, bind, call, emit, write_log, ret, undefined, get_this,
    modify_this, read_env in *;
  simpl in *.

(** Split on the result of the next callee. *)
Ltac callee_step :=
  match goal with
  | |- context [match ?x with pair _ _ => _ end] =>
      lazymatch x with
      | context [match _ with _ => _ end] => fail
      | _ => let E := fresh "Ecall" in destruct x as [[?|?|] ?] eqn:E; simpl in *
      end
  | H : context [match ?x with pair _ _ => _ end] |- _ =>
      lazymatch x with
      | context [match _ with _ => _ end] => fail
      | _ => let E := fresh "Ecall" in destruct x as [[?|?|] ?] eqn:E; simpl in *
      end
  end.

(** Read one entry of a transcript that is written out. *)
Ltac index_cases i :=
  do 6 (try (destruct i as [|i]; simpl in *; simplify_eq; try done; try lia)).

(** ** createTable *)

(** The contexts the engine does not take for the synchronization's: those
    without a query context, and those whose query has not used
    ReplacingMergeTree. *)
Lemma from_synchronization_false context :
  from_synchronization context = false ↔
  query_context context = None ∨
  ∃ info, query_context context = Some info ∧ "ReplacingMergeTree" ∉ storages info.
Proof.
  unfold from_synchronization. destruct (query_context context) as [info|].
  - rewrite bool_decide_eq_false. split.
    + intros Hnot. right. by exists info.
    + intros [?|(info' & ? & ?)]; by simplify_eq.
  - split; [by left|done].
Qed.

(** C2. [createTable] with a context that is not the synchronization's
    (no query context, or one that has not used ReplacingMergeTree) makes no
    call and leaves the object and everything outside it as they were.  On an
    object whose [log] points to a logger, it returns normally and its single
    entry is the warning.  On an object whose [log] was never given a value,
    which is every object the constructor for [DatabaseAtomic] makes, the
    warning reads that pointer and the behaviour is undefined. *)
Theorem createTable_unprivileged_reads_log context name table (query : AST) st :
  from_synchronization context = false →
  (∀ logger, log (this st) = Some logger →
     createTable context name table query st =
       (Returned tt, st,
        [ELogWarning
           "Create table query allowed only for ReplacingMergeTree engine and from synchronization thread"])) ∧
  (log (this st) = None →
     createTable context name table query st = (Undefined, st, [])) ∧
  (∀ c metadata_path_ database_name_ postgres_database_name connection_ settings_,
     this st = DatabasePostgreSQLReplica_Atomic c metadata_path_ database_name_
                 postgres_database_name connection_ settings_ →
     createTable context name table query st = (Undefined, st, [])).
Proof.
  intros Hctx. unfold createTable, write_log. rewrite Hctx. repeat split.
  - by intros logger ->.
  - by intros ->.
  - by intros c mp dn pdn cn se ->.
Qed.

(** C6. [createTable] with the synchronization's context (a query context
    that has used ReplacingMergeTree) is the base catalog's [createTable]:
    same outcome, same state after, same single call, whatever the name, the
    storage and the query. *)
Theorem createTable_privileged_delegates context name table (query : AST) st :
  from_synchronization context = true →
  createTable context name table query st = underlying_createTable context name table query st.
Proof.
  intros Hctx. unfold createTable. rewrite Hctx. reflexivity.
Qed.

(** ** dropTable *)

(** C10. [dropTable] makes one call, the base catalog's [dropTable], and
    returns what it gives; the object's own fields (the table map, so the
    entry under the dropped name, and the handler pointer) are as before, and
    no call goes to the replication handler. *)
Theorem dropTable_leaves_facade_unchanged context name no_delay st :
  ∃ r env',
    Base_dropTable context name no_delay (env st) = (r, env') ∧
    dropTable (AST := AST) context name no_delay st =
      (r, mkState (this st) env', [EBaseDropTable context name no_delay r]) ∧
    tables (this (dropTable (AST := AST) context name no_delay st).1.2) !! name
      = tables (this st) !! name ∧
    replication_handler (this (dropTable (AST := AST) context name no_delay st).1.2)
      = replication_handler (this st) ∧
    Forall (λ ev, is_handler_event ev = false)
      (dropTable (AST := AST) context name no_delay st).2.
Proof.
  unfold dropTable, call.
  destruct (Base_dropTable context name no_delay (env st)) as [r env'] eqn:E.
  exists r, env'. simpl. repeat split; auto.
Qed.

(** ** tryGetTable *)

(** C3. With a context that is not the synchronization's, and a table map
    that holds handles (as it does in every state the object goes through),
    [tryGetTable] makes no call, changes nothing and returns normally; what it
    returns is the handle the map has under the name when there is one and it
    is Loaded, its nested storage present, and a null pointer in every other
    case. *)
Theorem tryGetTable_unprivileged_loaded_only name context st :
  from_synchronization context = false →
  registry_of_handles (tables (this st)) →
  ∃ result,
    tryGetTable (AST := AST) name context st = (Returned result, st, []) ∧
    ∀ s, result = Some s ↔
         tables (this st) !! name = Some s ∧
         ∃ r nested, s = ReplicaStorage r ∧ replica_state r = Loaded nested ∧
                     tryGetNested r = Some nested.
Proof.
  intros Hctx Hreg. unfold tryGetTable. rewrite Hctx. unfold bind, get_this. simpl.
  destruct (tables (this st) !! name) as [table|] eqn:Hlook.
  - destruct (Hreg _ _ Hlook) as [r Hr]. rewrite Hr.
    destruct table as [r'|]; simpl in Hr; [|done]. simplify_eq.
    unfold isNestedLoaded, tryGetNested. destruct (replica_state r) as [|nested] eqn:Hs; simpl.
    + exists None. split; [done|]. intros s. split; [done|].
      intros [? (r' & nested & ? & ? & _)]. simplify_eq. congruence.
    + exists (Some (ReplicaStorage r)). split; [done|]. intros s. split.
      * intros ?. simplify_eq. split; [done|]. exists r, nested. by rewrite Hs.
      * intros [? _]. by simplify_eq.
  - exists None. simpl. split; [done|]. intros s. split; [done|]. by intros [? _].
Qed.

(** ** shutdown *)

(** C8. [shutdown] leaves the object's fields as they are and makes no call
    but the handler's [shutdown] (none at all without a handler, where it
    changes nothing): not [shutdownFinal], nothing on the metadata file.
    When a second [shutdown] of the handler, after one that returned, returns
    and changes nothing, two [shutdown]s of the engine end as one does: same
    outcome, same object, same environment. *)
Theorem shutdown_idempotent st :
  ((∀ h e e', Handler_shutdown h e = (Returned tt, e') →
              Handler_shutdown h e' = (Returned tt, e')) →
   (shutdown_twice (AST := AST) st).1 = (shutdown (AST := AST) st).1) ∧
  this (shutdown (AST := AST) st).1.2 = this st ∧
  this (shutdown_twice (AST := AST) st).1.2 = this st ∧
  Forall (λ ev, ∃ h r, replication_handler (this st) = Some h ∧ ev = EShutdown h r)
    (shutdown (AST := AST) st).2 ∧
  (replication_handler (this st) = None →
     shutdown (AST := AST) st = (Returned tt, st, []) ∧
     shutdown_twice (AST := AST) st = (Returned tt, st, [])).
Proof.
  unfold_run.
  destruct (replication_handler (this st)) as [h|] eqn:Hh; simpl.
  - destruct (Handler_shutdown h (env st)) as [[[]|e|] e1] eqn:E1; simpl; rewrite ?Hh; simpl.
    + destruct (Handler_shutdown h e1) as [r2 e2] eqn:E2; simpl.
      repeat split; try done.
      * intros Hidem. rewrite (Hidem _ _ _ E1) in E2. by simplify_eq.
      * repeat constructor. by exists h, (Returned tt).
    + repeat split; try done. repeat constructor. by exists h, (Threw e).
    + repeat split; try done. repeat constructor. by exists h, Undefined.
  - rewrite Hh. simpl. repeat split; done.
Qed.

(** ** drop *)

(** The order of the entries in a transcript of [drop]. *)
Lemma drop_transcript_order context st r st' (tr : list Entry) :
  drop context st = (r, st', tr) →
  (∀ h, replication_handler (this st) = Some h →
     ∀ i ev, tr !! i = Some ev → is_file_event ev = true →
       tr !! 0 = Some (EShutdown h (Returned tt)) ∧
       tr !! 1 = Some (EShutdownFinal h (Returned tt)) ∧ 2 ≤ i) ∧
  (replication_handler (this st) = None →
     Forall (λ ev, is_handler_event ev = false) tr ∧
     ∃ r0, tr !! 0 =
       Some (EFileExists (Base_getMetadataPath (env st) +:+ METADATA_SUFFIX) r0)) ∧
  (∀ i j ev r', tr !! i = Some ev → is_file_event ev = true →
     tr !! j = Some (EBaseDrop context r') → i < j) ∧
  (r = Returned tt → last tr = Some (EBaseDrop context (Returned tt))).
Proof.
  intros Hrun. unfold_run.
  destruct (replication_handler (this st)) as [h|] eqn:Hh; simpl in *.
  - repeat callee_step; simplify_eq.
    all: try match goal with b : bool |- _ => destruct b; simpl in * end.
    all: repeat callee_step; simplify_eq.
    all: repeat match goal with u : unit |- _ => destruct u end.
    all: split; [|split; [|split]].
    all: try (intros; discriminate).
    all: try (intros h' Hh' i ev Hi Hf; simplify_eq; index_cases i;
              repeat split; try done; lia).
    all: try (intros i j ev r' Hi Hf Hj; index_cases i; index_cases j; done).
    all: intros _; reflexivity.
  - repeat callee_step; simplify_eq.
    all: try match goal with b : bool |- _ => destruct b; simpl in * end.
    all: repeat callee_step; simplify_eq.
    all: repeat match goal with u : unit |- _ => destruct u end.
    all: split; [|split; [|split]].
    all: try (intros; discriminate).
    all: try (intros _; split; [repeat constructor | eexists; reflexivity]).
    all: try (intros i j ev r' Hi Hf Hj; index_cases i; index_cases j; done).
    all: intros _; reflexivity.
Qed.

(** Close a goal that spells out a run whose callee results are known. *)
Ltac spell_out :=
  repeat first
    [ progress simpl
    | done
    | discriminate
    | eassumption
    | split
    | eexists
    | progress intros ].

(** [drop], call by call. *)
Lemma drop_call_by_call context st r st' (tr : list Entry) :
  drop context st = (r, st', tr) →
  (∀ h, replication_handler (this st) = Some h →
     ∃ r1 e1,
       Handler_shutdown h (env st) = (r1, e1) ∧
       tr !! 0 = Some (EShutdown h r1) ∧
       (r1 ≠ Returned tt →
          tr = [EShutdown h r1] ∧ r = r1 ∧ st' = mkState (this st) e1) ∧
       (r1 = Returned tt →
          ∃ r2 e2,
            Handler_shutdownFinal h e1 = (r2, e2) ∧
            tr !! 1 = Some (EShutdownFinal h r2) ∧
            (r2 ≠ Returned tt →
               tr = [EShutdown h r1; EShutdownFinal h r2] ∧ r = r2 ∧
               st' = mkState (this st) e2) ∧
            (r2 = Returned tt →
               ∃ rest,
                 tr = [EShutdown h r1; EShutdownFinal h r2] ++ rest ∧
                 removes_metadata_then_drops context (this st) e2 rest r st'))) ∧
  (replication_handler (this st) = None →
     removes_metadata_then_drops context (this st) (env st) tr r st').
Proof.
  intros Hrun. unfold removes_metadata_then_drops. unfold_run.
  destruct (replication_handler (this st)) as [h|] eqn:Hh; simpl in *.
  - split; [|done]. intros h' Hh'. injection Hh' as <-.
    destruct (Handler_shutdown h (env st)) as [[[]|x|] e1] eqn:E1; simpl in *.
    2,3: injection Hrun as <- <- <-; eexists _, e1; spell_out.
    exists (Returned tt), e1. split; [done|].
    destruct (Handler_shutdownFinal h e1) as [[[]|x|] e2] eqn:E2; simpl in *.
    2,3: injection Hrun as <- <- <-; split; [done|]; split; [done|]; intros _;
         eexists _, e2; spell_out.
    destruct (File_exists (Base_getMetadataPath e2 +:+ METADATA_SUFFIX) e2)
      as [[[|]|x|] e3] eqn:E3; simpl in *.
    + destruct (File_remove (Base_getMetadataPath e2 +:+ METADATA_SUFFIX) false e3)
        as [[[]|x|] e4] eqn:E4; simpl in *.
      * destruct (Base_drop context e4) as [r5 e5] eqn:E5. injection Hrun as <- <- <-.
        split; [done|]. split; [done|]. intros _. exists (Returned tt), e2.
        split; [done|]. split; [done|]. split; [done|]. intros _.
        eexists. split; [reflexivity|]. exists (Returned true), e3. split; [done|].
        exists (Returned tt), e4. split; [done|]. by exists r5, e5.
      * injection Hrun as <- <- <-.
        split; [done|]. split; [done|]. intros _. exists (Returned tt), e2.
        split; [done|]. split; [done|]. split; [done|]. intros _.
        eexists. split; [reflexivity|]. exists (Returned true), e3. split; [done|].
        by exists (Threw x), e4.
      * injection Hrun as <- <- <-.
        split; [done|]. split; [done|]. intros _. exists (Returned tt), e2.
        split; [done|]. split; [done|]. split; [done|]. intros _.
        eexists. split; [reflexivity|]. exists (Returned true), e3. split; [done|].
        by exists Undefined, e4.
    + destruct (Base_drop context e3) as [r5 e5] eqn:E5. injection Hrun as <- <- <-.
      split; [done|]. split; [done|]. intros _. exists (Returned tt), e2.
      split; [done|]. split; [done|]. split; [done|]. intros _.
      eexists. split; [reflexivity|]. exists (Returned false), e3. split; [done|].
      by exists r5, e5.
    + injection Hrun as <- <- <-.
      split; [done|]. split; [done|]. intros _. exists (Returned tt), e2.
      split; [done|]. split; [done|]. split; [done|]. intros _.
      eexists. split; [reflexivity|]. by exists (Threw x), e3.
    + injection Hrun as <- <- <-.
      split; [done|]. split; [done|]. intros _. exists (Returned tt), e2.
      split; [done|]. split; [done|]. split; [done|]. intros _.
      eexists. split; [reflexivity|]. by exists Undefined, e3.
  - split; [done|]. intros _.
    destruct (File_exists (Base_getMetadataPath (env st) +:+ METADATA_SUFFIX) (env st))
      as [[[|]|x|] e3] eqn:E3; simpl in *.
    + destruct (File_remove (Base_getMetadataPath (env st) +:+ METADATA_SUFFIX) false e3)
        as [[[]|x|] e4] eqn:E4; simpl in *.
      * destruct (Base_drop context e4) as [r5 e5] eqn:E5. injection Hrun as <- <- <-.
        exists (Returned true), e3. split; [done|].
        exists (Returned tt), e4. split; [done|]. by exists r5, e5.
      * injection Hrun as <- <- <-. exists (Returned true), e3. split; [done|].
        by exists (Threw x), e4.
      * injection Hrun as <- <- <-. exists (Returned true), e3. split; [done|].
        by exists Undefined, e4.
    + destruct (Base_drop context e3) as [r5 e5] eqn:E5. injection Hrun as <- <- <-.
      exists (Returned false), e3. split; [done|]. by exists r5, e5.
    + injection Hrun as <- <- <-. by exists (Threw x), e3.
    + injection Hrun as <- <- <-. by exists Undefined, e3.
Qed.

(** C1. [drop], whatever the state before.  With a handler, it calls the
    handler's [shutdown] on the environment it finds; if that returns, the
    handler's [shutdownFinal] on the environment [shutdown] left; and only if
    that returns too does it go on, from the environment [shutdownFinal]
    left, to the metadata file (the existence test at the base catalog's
    metadata path with the suffix, the removal if the file is there) and
    then to the base catalog's [drop].  If [shutdown] or [shutdownFinal] does
    not return, nothing more is called and [drop] ends as that call did.
    Without a handler it makes no call on a handler and begins with the
    metadata file.  So in the transcript a call on the metadata file has
    before it, as the first two entries, the handler's [shutdown] and
    [shutdownFinal], both returned; the base catalog's [drop] comes after
    every call on the file, and is the last entry when [drop] returns. *)
Theorem drop_quiesces_before_metadata context st r st' (tr : list Entry) :
  drop context st = (r, st', tr) →
  (∀ h, replication_handler (this st) = Some h →
     ∀ i ev, tr !! i = Some ev → is_file_event ev = true →
       tr !! 0 = Some (EShutdown h (Returned tt)) ∧
       tr !! 1 = Some (EShutdownFinal h (Returned tt)) ∧ 2 ≤ i) ∧
  (replication_handler (this st) = None →
     Forall (λ ev, is_handler_event ev = false) tr ∧
     ∃ r0, tr !! 0 =
       Some (EFileExists (Base_getMetadataPath (env st) +:+ METADATA_SUFFIX) r0)) ∧
  (∀ i j ev r', tr !! i = Some ev → is_file_event ev = true →
     tr !! j = Some (EBaseDrop context r') → i < j) ∧
  (r = Returned tt → last tr = Some (EBaseDrop context (Returned tt))) ∧
  (∀ h, replication_handler (this st) = Some h →
     ∃ r1 e1,
       Handler_shutdown h (env st) = (r1, e1) ∧
       tr !! 0 = Some (EShutdown h r1) ∧
       (r1 ≠ Returned tt →
          tr = [EShutdown h r1] ∧ r = r1 ∧ st' = mkState (this st) e1) ∧
       (r1 = Returned tt →
          ∃ r2 e2,
            Handler_shutdownFinal h e1 = (r2, e2) ∧
            tr !! 1 = Some (EShutdownFinal h r2) ∧
            (r2 ≠ Returned tt →
               tr = [EShutdown h r1; EShutdownFinal h r2] ∧ r = r2 ∧
               st' = mkState (this st) e2) ∧
            (r2 = Returned tt →
               ∃ rest,
                 tr = [EShutdown h r1; EShutdownFinal h r2] ++ rest ∧
                 removes_metadata_then_drops context (this st) e2 rest r st'))) ∧
  (replication_handler (this st) = None →
     removes_metadata_then_drops context (this st) (env st) tr r st').
Proof.
  intros Hrun.
  destruct (drop_transcript_order _ _ _ _ _ Hrun) as (H1' & H2' & H3' & H4').
  destruct (drop_call_by_call _ _ _ _ _ Hrun) as (H5' & H6').
  split; [exact H1'|]. split; [exact H2'|]. split; [exact H3'|]. split; [exact H4'|].
  split; [exact H5'|exact H6'].
Qed.

(** ** getTablesIterator *)

(** The loop of [getTablesIterator] over entries with distinct names that are
    all handles: it ends normally, an entry's name maps to its nested storage
    if it has one, and the other names are as in the map the loop began
    with. *)
Lemma collect_nested_spec (l : list (string * IStorage)) (acc : Tables) :
  NoDup l.*1 →
  Forall (λ entry, is_Some (as_StoragePostgreSQLReplica entry.2)) l →
  (∀ name, name ∈ l.*1 → acc !! name = None) →
  ∃ res, foldl (collect_nested (Exn := Exn)) (Returned acc) l = Returned res ∧
    (∀ name s, (name, s) ∈ l → res !! name = nested_of s) ∧
    (∀ name, name ∉ l.*1 → res !! name = acc !! name).
Proof.
  revert acc. induction l as [|[k s] l IH]; intros acc Hnd Hall Hacc.
  - exists acc. split; [done|]. split; [|done]. intros ? ? Hin. by apply elem_of_nil in Hin.
  - apply NoDup_cons in Hnd as [Hk Hnd]. apply Forall_cons in Hall as [[r Hr] Hall].
    simpl in *. rewrite Hr.
    set (acc' := match tryGetNested r with Some n => <[k := n]> acc | None => acc end).
    assert (Hstep : match tryGetNested r with
                    | Some nested_storage => Returned (Exn := Exn) (<[k := nested_storage]> acc)
                    | None => Returned acc
                    end = Returned acc').
    { subst acc'. by destruct (tryGetNested r). }
    rewrite Hstep.
    assert (Hacc' : ∀ name, name ∈ l.*1 → acc' !! name = None).
    { intros name Hin. assert (k ≠ name) by (intros ->; done).
      subst acc'. destruct (tryGetNested r).
      - rewrite lookup_insert_ne by done. apply Hacc. by right.
      - apply Hacc. by right. }
    destruct (IH acc' Hnd Hall Hacc') as (res & Hres & Hin & Hout).
    exists res. split; [done|]. split.
    + intros name s0 Hel. apply elem_of_cons in Hel as [Heq|Hel].
      * simplify_eq. rewrite (Hout _ Hk). unfold nested_of. rewrite Hr. simpl.
        subst acc'. destruct (tryGetNested r).
        -- by rewrite lookup_insert_eq.
        -- apply Hacc. by left.
      * by apply Hin.
    + intros name Hnot. apply not_elem_of_cons in Hnot as [Hne Hnot].
      rewrite (Hout _ Hnot). subst acc'. destruct (tryGetNested r); [|done].
      by rewrite lookup_insert_ne.
Qed.

(** C4. On a table map that holds handles (as it does in every state the
    object goes through), [getTablesIterator] makes no call, changes nothing
    and returns a snapshot under the database's name in which a name maps to
    a storage exactly when the table map has under that name a handle whose
    [tryGetNested] is that storage; so what is listed under a name is the
    nested storage of the Loaded handle of that name, never anything for a
    Pending one. *)
Theorem getTablesIterator_lists_loaded_only st :
  registry_of_handles (tables (this st)) →
  ∃ snap,
    getTablesIterator (Exn := Exn) (AST := AST) st = (Returned snap, st, []) ∧
    snapshot_database_name snap = database_name (this st) ∧
    (∀ name nested,
       snapshot_tables snap !! name = Some nested ↔
       ∃ r, tables (this st) !! name = Some (ReplicaStorage r) ∧
            tryGetNested r = Some nested) ∧
    (∀ name nested,
       snapshot_tables snap !! name = Some nested →
       ∃ r, tables (this st) !! name = Some (ReplicaStorage r) ∧
            replica_state r = Loaded nested).
Proof.
  intros Hreg. unfold getTablesIterator, bind, get_this. simpl.
  destruct (collect_nested_spec (map_to_list (tables (this st))) ∅)
    as (res & Hres & Hin & Hout).
  { apply NoDup_fst_map_to_list. }
  { apply Forall_forall. intros [k s] Hel. apply elem_of_map_to_list in Hel.
    exact (Hreg _ _ Hel). }
  { intros. apply lookup_empty. }
  rewrite Hres. simpl.
  assert (Hchar : ∀ name nested,
             res !! name = Some nested ↔
             ∃ r, tables (this st) !! name = Some (ReplicaStorage r) ∧
                  tryGetNested r = Some nested).
  { intros name nested. destruct (tables (this st) !! name) as [s|] eqn:Hlook.
    - rewrite (Hin name s) by by apply elem_of_map_to_list.
      destruct (Hreg _ _ Hlook) as [r Hr]. destruct s as [r'|]; [|done].
      simpl in Hr. simplify_eq. unfold nested_of. simpl. split.
      + intros ?. by exists r.
      + intros (r' & ? & ?). by simplify_eq.
    - rewrite Hout, lookup_empty.
      + split; [done|]. by intros (? & ? & _).
      + intros Hel. apply list_elem_of_fmap in Hel as ([k s] & -> & Hel).
        apply elem_of_map_to_list in Hel. simpl in Hlook. congruence. }
  eexists. split; [reflexivity|]. simpl. split; [done|]. split; [exact Hchar|].
  intros name nested Hn. apply Hchar in Hn as (r & Hlook & Hnested).
  exists r. split; [done|]. unfold tryGetNested in Hnested.
  destruct (replica_state r); by simplify_eq.
Qed.

(** ** No member function catches an exception *)

Lemma fail_stop_silent {A} (m : Run A) :
  (∀ st, (m st).2 = []) → fail_stop m.
Proof.
  intros Hm st r st' tr Hrun i ev Hi. specialize (Hm st). rewrite Hrun in Hm.
  simpl in Hm. subst tr. done.
Qed.

Lemma fail_stop_call {X} (f : Call X) (ev : Outcome Exn X → Entry) :
  (∀ r, event_outcome (ev r) = void r) → fail_stop (call f ev).
Proof.
  intros Hev st r st' tr Hrun i e Hi Hne. unfold call in Hrun.
  destruct (f (env st)) as [r0 env']. simplify_eq.
  destruct i as [|i]; simpl in Hi; [|done]. simplify_eq. by rewrite Hev.
Qed.

Lemma fail_stop_emit (e : Entry) :
  event_outcome e = Returned tt → fail_stop (emit e : Run unit).
Proof.
  intros He st r st' tr Hrun i ev Hi Hne. unfold emit in Hrun. simplify_eq.
  destruct i as [|i]; simpl in Hi; [|done]. by simplify_eq.
Qed.

Lemma fail_stop_write_log (e : Entry) :
  event_outcome e = Returned tt → fail_stop (write_log e : Run unit).
Proof.
  intros He st r st' tr Hrun i ev Hi Hne. unfold write_log in Hrun.
  destruct (log (this st)); simplify_eq.
  destruct i as [|i]; simpl in Hi; [|done]. by simplify_eq.
Qed.

Lemma fail_stop_bind {A B} (m : Run A) (k : A → Run B) :
  fail_stop m → (∀ a, fail_stop (k a)) → fail_stop (bind m k).
Proof.
  intros Hm Hk st r st' tr Hrun i ev Hi Hne. unfold bind in Hrun.
  destruct (m st) as [[r1 st1] t1] eqn:Em.
  destruct r1 as [a|e|].
  - destruct (k a st1) as [[r2 st2] t2] eqn:Ek. simplify_eq.
    destruct (decide (i < length t1)) as [Hlt|Hge].
    + rewrite lookup_app_l in Hi by done.
      destruct (Hm _ _ _ _ Em _ _ Hi Hne) as [Hvoid _]. simpl in Hvoid. congruence.
    + rewrite lookup_app_r in Hi by lia.
      destruct (Hk a _ _ _ _ Ek _ _ Hi Hne) as [Hvoid Hlen]. split; [done|].
      rewrite length_app. lia.
  - simplify_eq. exact (Hm _ _ _ _ Em _ _ Hi Hne).
  - simplify_eq. exact (Hm _ _ _ _ Em _ _ Hi Hne).
Qed.

Lemma fail_stop_for_each {X} (xs : list X) (body : X → Run unit) :
  (∀ x, fail_stop (body x)) → fail_stop (for_each xs body).
Proof.
  intros Hbody. induction xs as [|x xs IH]; simpl.
  - by apply fail_stop_silent.
  - apply fail_stop_bind; [apply Hbody | intros _; exact IH].
Qed.

Ltac fail_stop_call_tac :=
  apply fail_stop_call; first [done | by intros [[]| |]].

Lemma fail_stop_tryGetTable name context : fail_stop (tryGetTable name context : Run _).
Proof.
  unfold tryGetTable. destruct (from_synchronization context).
  - fail_stop_call_tac.
  - apply fail_stop_bind; [by apply fail_stop_silent|]. intros d.
    destruct (tables d !! name) as [table|]; [|by apply fail_stop_silent].
    destruct (as_StoragePostgreSQLReplica table) as [r|]; [|by apply fail_stop_silent].
    destruct (isNestedLoaded r); by apply fail_stop_silent.
Qed.

Lemma fail_stop_register_table h name : fail_stop (register_table h name : Run _).
Proof.
  unfold register_table, getStorage.
  apply fail_stop_bind.
  - apply fail_stop_bind; [by apply fail_stop_silent|]. intros d.
    apply fail_stop_bind; [apply fail_stop_tryGetTable|].
    intros [s|]; by apply fail_stop_silent.
  - intros [s|]; [|by apply fail_stop_silent].
    apply fail_stop_bind; [fail_stop_call_tac|]. intros _. by apply fail_stop_silent.
Qed.

Lemma fail_stop_startSynchronization : fail_stop (startSynchronization : Run _).
Proof.
  unfold startSynchronization.
  apply fail_stop_bind; [by apply fail_stop_silent|]. intros d.
  apply fail_stop_bind; [fail_stop_call_tac|]. intros h.
  apply fail_stop_bind; [by apply fail_stop_silent|]. intros _.
  apply fail_stop_bind; [fail_stop_call_tac|]. intros S.
  apply fail_stop_bind; [apply fail_stop_for_each, fail_stop_register_table|]. intros _.
  apply fail_stop_bind; [by apply fail_stop_silent|]. intros d'.
  apply fail_stop_bind; [by apply fail_stop_write_log|]. intros _.
  fail_stop_call_tac.
Qed.

Lemma fail_stop_loadStoredObjects context f1 f2 :
  fail_stop (loadStoredObjects context f1 f2 : Run _).
Proof.
  unfold loadStoredObjects.
  apply fail_stop_bind; [fail_stop_call_tac|]. intros _.
  apply fail_stop_startSynchronization.
Qed.

(** ** loadStoredObjects *)


(** ** startSynchronization *)

Lemma bind_inv {A B} (m : Run A) (k : A → Run B) st r st' tr :
  bind m k st = (r, st', tr) →
  (∃ a st1 t1 t2,
     m st = (Returned a, st1, t1) ∧ k a st1 = (r, st', t2) ∧ tr = t1 ++ t2) ∨
  (∃ r1, m st = (r1, st', tr) ∧ is_returned r1 = false ∧ void r1 = void r).
Proof.
  unfold bind. destruct (m st) as [[[a|e|] st1] t1].
  - destruct (k a st1) as [[r2 st2] t2] eqn:Ek. intros ?. simplify_eq.
    left. by exists a, st1, t1, t2.
  - intros ?. simplify_eq. right. by eexists.
  - intros ?. simplify_eq. right. by eexists.
Qed.

Lemma handle_origin_ext (d d' : DatabasePostgreSQLReplica (Handler := Handler)) name s
    (tr pre post : list Entry) :
  database_name d' = database_name d →
  global_context d' = global_context d →
  tables d' !! name = tables d !! name →
  handle_origin d' name s tr → handle_origin d name s (pre ++ tr ++ post).
Proof.
  intros Hdb Hctx Ht. unfold handle_origin. rewrite Hdb, Hctx, Ht.
  intros [?|[[? Hin]|?]]; [by left| |by right; right].
  right; left. split; [done|]. set_solver.
Qed.

(** One turn of the loop on [name]: its entries are the lookup and the
    registration of that name; when it returns, the storage it found or made
    has been given to the handler and put into the map under the name, and
    when it does not, the object is as before. *)
Ltac registrations :=
  repeat (apply Forall_cons_2;
          [first [left; by eexists | right; by eexists _, _]|]);
  apply Forall_nil_2.

Lemma register_table_spec h name st r st' (tr : list Entry) :
  register_table h name st = (r, st', tr) →
  Forall (is_registration_of h (global_context (this st)) name) tr ∧
  ((∃ s, r = Returned tt ∧
         this st' = set_tables (<[name := s]> (tables (this st))) (this st) ∧
         EAddStorage h name (as_StoragePostgreSQLReplica s) (Returned tt) ∈ tr ∧
         handle_origin (this st) name s tr)
   ∨ (r ≠ Returned tt ∧ this st' = this st)).
Proof.
  unfold register_table, getStorage, tryGetTable, handle_origin, is_registration_of.
  unfold bind, call, get_this, modify_this, ret, undefined. simpl.
  destruct (from_synchronization (global_context (this st))) eqn:Hctx.
  - destruct (Base_tryGetTable name (global_context (this st)) (env st))
      as [[[s|]|e|] env1] eqn:Hbase; simpl.
    + destruct (Handler_addStorage h name (as_StoragePostgreSQLReplica s) env1)
        as [[[]|e|] env2]; simpl; intros ?; simplify_eq; (split; [registrations|]).
      * left. exists s. repeat split; [set_solver|]. right; left. split; [done|set_solver].
      * by right.
      * by right.
    + destruct (Handler_addStorage h name _ env1)
        as [[[]|e|] env2]; simpl; intros ?; simplify_eq; (split; [registrations|]).
      * left. eexists. repeat split; [set_solver|]. by left.
      * by right.
      * by right.
    + intros ?; simplify_eq. split; [registrations|]. by right.
    + intros ?; simplify_eq. split; [registrations|]. by right.
  - destruct (tables (this st) !! name) as [table|] eqn:Hlook; simpl.
    + destruct table as [rep|eng tid]; simpl.
      * destruct (isNestedLoaded rep) eqn:Hs; simpl.
        -- destruct (Handler_addStorage h name _ (env st))
             as [[[]|e|] env2]; simpl; intros ?; simplify_eq;
             (split; [registrations|]).
           ++ left. exists (ReplicaStorage rep). repeat split; [set_solver|].
              right; right. split; [done|]. split; [done|]. by exists rep.
           ++ by right.
           ++ by right.
        -- destruct (Handler_addStorage h name _ (env st))
             as [[[]|e|] env2]; simpl; intros ?; simplify_eq;
             (split; [registrations|]).
           ++ left. eexists. repeat split; [set_solver|]. by left.
           ++ by right.
           ++ by right.
      * intros ?; simplify_eq. split; [registrations|]. by right.
    + destruct (Handler_addStorage h name _ (env st))
        as [[[]|e|] env2]; simpl; intros ?; simplify_eq; (split; [registrations|]).
      * left. eexists. repeat split; [set_solver|]. by left.
      * by right.
      * by right.
Qed.

(** The whole loop over distinct names: only the table map changes, and only
    under the names visited; the entries are lookups and registrations of
    those names; and when the loop returns, every name visited has in the map
    the storage that was given to the handler for it. *)
Lemma register_tables_spec h (l : list string) :
  NoDup l → ∀ st r st' (tr : list Entry),
  for_each l (register_table h) st = (r, st', tr) →
  ∃ t',
    this st' = set_tables t' (this st) ∧
    (∀ name, name ∉ l → t' !! name = tables (this st) !! name) ∧
    Forall (λ ev, ∃ name, name ∈ l ∧
                  is_registration_of h (global_context (this st)) name ev) tr ∧
    (r = Returned tt →
     ∀ name, name ∈ l →
       ∃ s, t' !! name = Some s ∧
            EAddStorage h name (as_StoragePostgreSQLReplica s) (Returned tt) ∈ tr ∧
            handle_origin (this st) name s tr).
Proof.
  induction l as [|x l IH]; intros Hnd st r st' tr Hrun.
  - simpl in Hrun. unfold ret in Hrun. injection Hrun as Hr Hst Htr. subst st' tr.
    exists (tables (this st)). split; [by destruct (this st)|].
    split; [done|]. split; [constructor|]. intros _ name Hin. by apply elem_of_nil in Hin.
  - apply NoDup_cons in Hnd as [Hx Hnd]. simpl in Hrun.
    apply bind_inv in Hrun as [(a & st1 & t1 & t2 & Hbody & Hrest & ->)|(r1 & Hbody & Hr1 & Hvoid)].
    + apply register_table_spec in Hbody as [Hev1 [(s & _ & Hthis1 & Hadd & Horigin)|[Hne _]]];
        [|by destruct a].
      destruct (IH Hnd _ _ _ _ Hrest) as (t' & Hthis' & Hframe & Hev2 & Hall).
      rewrite Hthis1 in Hthis', Hframe, Hev2. simpl in Hthis', Hframe, Hev2.
      exists t'. split; [done|]. split; [|split].
      * intros name Hnot. apply not_elem_of_cons in Hnot as [Hne Hnot].
        rewrite (Hframe _ Hnot). by rewrite lookup_insert_ne.
      * apply Forall_app. split.
        -- eapply Forall_impl; [exact Hev1|]. intros ev Hev. exists x. split; [by left|done].
        -- eapply Forall_impl; [exact Hev2|]. intros ev (name & Hin & Hev).
           exists name. split; [by right|done].
      * intros Hr name Hin. apply elem_of_cons in Hin as [->|Hin].
        -- exists s. split; [|split].
           ++ rewrite (Hframe _ Hx). by rewrite lookup_insert_eq.
           ++ set_solver.
           ++ by apply (handle_origin_ext _ (this st) x s t1 [] t2).
        -- destruct (Hall Hr name Hin) as (s' & Hlook & Hadd' & Horigin').
           exists s'. split; [done|]. split; [set_solver|].
           assert (x ≠ name) by (intros ->; done).
           replace (t1 ++ t2) with (t1 ++ t2 ++ []) by by rewrite app_nil_r.
           apply (handle_origin_ext _ (this st1) name s' t2 t1 []);
             [by rewrite Hthis1 | by rewrite Hthis1 | | done].
           rewrite Hthis1. simpl. by rewrite lookup_insert_ne.
    + apply register_table_spec in Hbody as [Hev1 [(s & -> & _)|[Hne Hthis1]]]; [done|].
      exists (tables (this st)). split; [rewrite Hthis1; by destruct (this st)|].
      split; [done|]. split.
      * eapply Forall_impl; [exact Hev1|]. intros ev Hev. exists x. split; [by left|done].
      * intros ->. destruct r1 as [[]| |]; simpl in *; done.
Qed.

Lemma registration_not_startup h c name (ev : Entry) :
  is_registration_of h c name ev → is_startup_event ev = false.
Proof. by intros [[r ->]|(s & r & ->)]. Qed.

(** One returned turn of the loop, call by call. *)
Lemma register_table_returned h name st st1 (t1 : list Entry) :
  register_table h name st = (Returned tt, st1, t1) →
  ∃ found e1 tr1 e2,
    looks_up (global_context (this st)) (tables (this st)) name (env st) found e1 tr1 ∧
    let s := default (StoragePostgreSQLReplica_create
                        (mkStorageID (database_name (this st)) name) None
                        (global_context (this st))) found in
    Handler_addStorage h name (as_StoragePostgreSQLReplica s) e1 = (Returned tt, e2) ∧
    st1 = mkState (set_tables (<[name := s]> (tables (this st))) (this st)) e2 ∧
    t1 = tr1 ++ [EAddStorage h name (as_StoragePostgreSQLReplica s) (Returned tt)].
Proof.
  unfold register_table, getStorage, tryGetTable, looks_up.
  unfold bind, call, get_this, modify_this, ret, undefined. simpl.
  destruct (from_synchronization (global_context (this st))) eqn:Hctx.
  - destruct (Base_tryGetTable name (global_context (this st)) (env st))
      as [[found|e|] env1] eqn:Hbase; simpl; [|intros ?; simplify_eq..].
    destruct found as [s|]; simpl.
    + destruct (Handler_addStorage h name (as_StoragePostgreSQLReplica s) env1)
        as [[[]|e|] env2] eqn:Hadd; simpl; intros ?; simplify_eq.
      exists (Some s), env1, [EBaseTryGetTable name (global_context (this st))
                                (Returned (Some s))], env2. by simpl.
    + destruct (Handler_addStorage h name _ env1)
        as [[[]|e|] env2] eqn:Hadd; simpl; intros ?; simplify_eq.
      exists None, env1, [EBaseTryGetTable name (global_context (this st)) (Returned None)],
        env2. by simpl.
  - destruct (tables (this st) !! name) as [[rep|eng tid]|] eqn:Hlook; simpl.
    + destruct (isNestedLoaded rep) eqn:Hl; simpl;
        destruct (Handler_addStorage h name _ (env st))
          as [[[]|e|] env2] eqn:Hadd; simpl; intros ?; simplify_eq.
      * exists (Some (ReplicaStorage rep)), (env st), [], env2. simpl.
        split; [|done]. split; [done|]. split; [done|]. exists rep. by rewrite Hl.
      * exists None, (env st), [], env2. simpl.
        split; [|done]. split; [done|]. split; [done|]. exists rep. by rewrite Hl.
    + intros ?; simplify_eq.
    + destruct (Handler_addStorage h name _ (env st))
        as [[[]|e|] env2] eqn:Hadd; simpl; intros ?; simplify_eq.
      exists None, (env st), [], env2. by simpl.
Qed.

(** The returned loop, turn by turn. *)
Lemma register_tables_in_turn h (l : list string) :
  ∀ st st' (tr : list Entry),
  for_each l (register_table h) st = (Returned tt, st', tr) →
  registered_in_turn h (global_context (this st)) (database_name (this st)) l
    (tables (this st)) (env st) (tables (this st')) (env st') tr.
Proof.
  induction l as [|x l IH]; intros st st' tr Hrun; simpl in Hrun.
  - unfold ret in Hrun. by simplify_eq.
  - apply bind_inv in Hrun
      as [(a & st1 & t1 & t2 & Hbody & Hrest & ->)|(r1 & _ & Hr1 & Hvoid)];
      [|by destruct r1].
    destruct a.
    apply register_table_returned in Hbody as (found & e1 & tr1 & e2 & Hlook & Hadd & -> & ->).
    apply IH in Hrest. simpl in Hrest. simpl.
    exists found, e1, tr1, e2, t2. split; [done|]. split; [done|]. split; [done|].
    by rewrite <- app_assoc.
Qed.

(** C5. In a run of [startSynchronization], whatever its outcome, the table
    map changes only under names of the set [fetchRequiredTables] returned,
    and a [startup] entry is the last of the transcript, after every
    [addStorage].  When the run returns, the transcript is: the construction
    of the handler, [fetchRequiredTables], the lookups and registrations of
    the names of the set, the trace message, [startup]; the names of the
    table map are those it had and those of the set (the set alone when the
    map was empty, as after construction); and each name of the set has in
    the map the storage that was given to [addStorage] for it, which is a new
    Pending handle or the storage [tryGetTable] found with the global
    context.  Call by call: the handler's constructor returned the handler
    on the environment before; [fetchRequiredTables] of that handler
    returned the set on the environment the constructor left; then, for each
    name in the set's order of iteration, the lookup was made and what it
    found, or else the new Pending handle, was given to [addStorage] of the
    handler, which returned, and was put into the table map; then [startup]
    returned on the environment the last [addStorage] left, and the state
    after is the object with the handler and that table map on the
    environment [startup] left. *)
Theorem startSynchronization_registers_required st r st' (tr : list Entry) :
  startSynchronization st = (r, st', tr) →
  (∀ name, tables (this st') !! name ≠ tables (this st) !! name →
     ∃ h S, tr !! 1 = Some (EFetchRequiredTables h (connection (this st)) (Returned S)) ∧
            name ∈ iteration S) ∧
  (∀ j ev, tr !! j = Some ev → is_startup_event ev = true →
     S j = length tr ∧
     ∀ i h n s r', tr !! i = Some (EAddStorage h n s r') → i < j) ∧
  (r = Returned tt →
     ∃ h S adds,
       tr = [EHandlerNew (handler_arguments (this st)) (Returned h);
             EFetchRequiredTables h (connection (this st)) (Returned S)]
            ++ adds ++
            [ELogTrace "Loaded {} tables. Starting synchronization"
               (size (tables (this st')));
             EStartup h (Returned tt)] ∧
       Forall (λ ev, ∃ name, name ∈ iteration S ∧
                     is_registration_of h (global_context (this st)) name ev) adds ∧
       replication_handler (this st') = Some h ∧
       dom (tables (this st')) = dom (tables (this st)) ∪ contents S ∧
       (∀ name, name ∈ iteration S →
          ∃ s, tables (this st') !! name = Some s ∧
               EAddStorage h name (as_StoragePostgreSQLReplica s) (Returned tt) ∈ adds ∧
               handle_origin (this st) name s adds) ∧
       (tables (this st) = ∅ →
          dom (tables (this st')) = contents S ∧
          ∀ name, name ∈ iteration S →
            ∃ s, tables (this st') !! name = Some s ∧
                 (s = StoragePostgreSQLReplica_create
                        (mkStorageID (database_name (this st)) name) None
                        (global_context (this st))
                  ∨ (from_synchronization (global_context (this st)) = true ∧
                     EBaseTryGetTable name (global_context (this st)) (Returned (Some s))
                       ∈ adds))) ∧
       ∃ e1 e2 e3 e4,
         Handler_new (handler_arguments (this st)) (env st) = (Returned h, e1) ∧
         Handler_fetchRequiredTables h (connection (this st)) e1 = (Returned S, e2) ∧
         registered_in_turn h (global_context (this st)) (database_name (this st))
           (iteration S) (tables (this st)) e2 (tables (this st')) e3 adds ∧
         Handler_startup h e3 = (Returned tt, e4) ∧
         st' = mkState (set_tables (tables (this st'))
                          (set_replication_handler (Some h) (this st))) e4).
Proof.
  intros Hrun.
  unfold startSynchronization, bind, get_this, call, modify_this, write_log in Hrun.
  simpl in Hrun.
  destruct (Handler_new (handler_arguments (this st)) (env st)) as [[h|e|] env1] eqn:Hnew;
    simpl in Hrun.
  2,3: simplify_eq; split; [done|]; split; [|done];
       intros j ev Hj Hev; destruct j as [|j]; simpl in Hj; by simplify_eq.
  destruct (Handler_fetchRequiredTables h (connection (this st)) env1)
    as [[names|e|] env2] eqn:Hfetch; simpl in Hrun.
  2,3: simplify_eq; split; [done|]; split; [|done];
       intros j ev Hj Hev; index_cases j.
  destruct (for_each (iteration names) (register_table h)
              (mkState (set_replication_handler (Some h) (this st)) env2))
    as [[r2 st3] adds] eqn:Hloop.
  destruct (register_tables_spec h (iteration names) (iteration_NoDup names) _ _ _ _ Hloop)
    as (t' & Hthis3 & Hframe & Hadds' & Hall).
  simpl in Hthis3, Hframe, Hadds', Hall.
  assert (Hquiet : ∀ i ev, adds !! i = Some ev → is_startup_event ev = false).
  { intros i ev Hi. apply list_elem_of_lookup_2 in Hi.
    rewrite Forall_forall in Hadds'. destruct (Hadds' _ Hi) as (name & _ & Hev).
    by eapply registration_not_startup. }
  assert (Hchanged : ∀ name, t' !! name ≠ tables (this st) !! name →
                       name ∈ iteration names).
  { intros name Hne. destruct (decide (name ∈ iteration names)) as [|Hnot]; [done|].
    exfalso. by apply Hne, Hframe. }
  assert (Hc : ∀ name, tables (this st3) !! name ≠ tables (this st) !! name →
            ∃ h' S, (EHandlerNew (handler_arguments (this st)) (Returned h)
                     :: EFetchRequiredTables h (connection (this st)) (Returned names)
                     :: adds) !! 1
                    = Some (EFetchRequiredTables h' (connection (this st)) (Returned S)) ∧
                    name ∈ iteration S).
  { rewrite Hthis3. simpl. intros name Hne. exists h, names.
    split; [done|by apply Hchanged]. }
  assert (Hs : ∀ j ev, (EHandlerNew (handler_arguments (this st)) (Returned h)
                        :: EFetchRequiredTables h (connection (this st)) (Returned names)
                        :: adds) !! j = Some ev →
                       is_startup_event ev = true → False).
  { intros j ev Hj Hev. destruct j as [|[|j]]; simpl in Hj; simplify_eq; try done.
    apply Hquiet in Hj. congruence. }
  destruct r2 as [[]|e|]; simpl in Hrun.
  2,3: injection Hrun as <- <- <-; split; [exact Hc|]; split; [|done];
       intros j ev Hj Hev; destruct (Hs j ev Hj Hev).
  destruct (log (this st3)) as [logger|] eqn:Hlog; simpl in Hrun.
  2: { injection Hrun as <- <- <-. rewrite app_nil_r. split; [exact Hc|]. split; [|done].
       intros j ev Hj Hev. destruct (Hs j ev Hj Hev). }
  clear Hc Hs.
  destruct (Handler_startup h (env st3)) as [r3 env4] eqn:Hstart. simpl in Hrun.
  apply register_tables_in_turn in Hloop as Hturn. simpl in Hturn.
  injection Hrun as <- <- <-. simpl. rewrite Hthis3 in *. simpl in *.
  split; [|split].
  - intros name Hne. exists h, names. split; [done|by apply Hchanged].
  - intros j ev Hj Hev.
    destruct j as [|[|j]]; simpl in Hj; simplify_eq; try done.
    destruct (decide (j < length adds)) as [Hlt|Hge].
    { rewrite lookup_app_l in Hj by done. apply Hquiet in Hj. congruence. }
    rewrite lookup_app_r in Hj by lia.
    destruct (j - length adds) as [|[|k]] eqn:Hk; simpl in Hj; simplify_eq.
    simpl. rewrite length_app. simpl. split; [lia|].
    intros i h' n s r' Hi.
    destruct (decide (i < S (S j))) as [|Hnlt]; [done|]. exfalso.
    apply lookup_lt_Some in Hi as Hlen. simpl in Hlen. rewrite length_app in Hlen.
    simpl in Hlen. assert (i = S (S j)) as -> by lia. simpl in Hi.
    rewrite lookup_app_r in Hi by lia.
    replace (j - length adds) with 1 in Hi by lia. by simpl in Hi.
  - intros ->. exists h, names, adds.
    assert (Hdom : dom t' = dom (tables (this st)) ∪ contents names).
    { apply set_eq. intros name. unfold contents.
      rewrite elem_of_union, elem_of_list_to_set, !elem_of_dom.
      destruct (decide (name ∈ iteration names)) as [Hin|Hnot].
      - split; [by right|]. intros _.
        destruct (Hall eq_refl name) as (s & -> & _); done.
      - rewrite Hframe by done. tauto. }
    assert (Hreg : ∀ name, name ∈ iteration names →
              ∃ s, t' !! name = Some s ∧
                   EAddStorage h name (as_StoragePostgreSQLReplica s) (Returned tt) ∈ adds ∧
                   handle_origin (this st) name s adds).
    { intros name Hin. destruct (Hall eq_refl name) as (s & Hs & Hadd & Horigin); [done|].
      exists s. split; [done|]. split; [done|].
      apply (handle_origin_ext (this st) _ name s adds [] []) in Horigin; try done.
      by rewrite app_nil_r in Horigin. }
    split; [done|]. split; [done|]. split; [done|]. split; [done|].
    split; [done|]. split.
    + intros Hempty. split.
      * rewrite Hdom, Hempty, dom_empty_L. by rewrite (left_id_L ∅ (∪)).
      * intros name Hin. destruct (Hreg name Hin) as (s & Hs & _ & Horigin).
        exists s. split; [done|].
        destruct Horigin as [?|[?|(_ & Hlook & _)]]; [by left|by right|].
        rewrite Hempty, lookup_empty in Hlook. done.
    + exists env1, env2, (env st3), env4. by destruct st3.
Qed.

(** ** The table map holds handles in every state the object goes through *)

Lemma register_table_keeps_well_formed h name st r st' (tr : list Entry) :
  register_table h name st = (r, st', tr) →
  well_formed (this st) → well_formed (this st').
Proof.
  intros Hrun [Hreg Hctx].
  apply register_table_spec in Hrun as [_ [(s & _ & -> & _ & Horigin)|[_ ->]]]; [|done].
  split; [|done]. simpl. apply map_Forall_insert_2; [|done].
  destruct Horigin as [->|[[Hsync _]|(_ & _ & rep & -> & _)]]; [done|congruence|done].
Qed.

Lemma register_tables_keep_well_formed h (l : list string) :
  ∀ st r st' (tr : list Entry),
  for_each l (register_table h) st = (r, st', tr) →
  well_formed (this st) → well_formed (this st').
Proof.
  induction l as [|x l IH]; intros st r st' tr Hrun Hwf; simpl in Hrun.
  - unfold ret in Hrun. by simplify_eq.
  - apply bind_inv in Hrun as [(a & st1 & t1 & t2 & Hbody & Hrest & _)|(r1 & Hbody & _)].
    + eapply IH; [exact Hrest|]. by eapply register_table_keeps_well_formed.
    + by eapply register_table_keeps_well_formed.
Qed.

Lemma startSynchronization_keeps_well_formed st r st' (tr : list Entry) :
  startSynchronization st = (r, st', tr) →
  well_formed (this st) → well_formed (this st').
Proof.
  intros Hrun Hwf.
  unfold startSynchronization, bind, get_this, call, modify_this, write_log in Hrun.
  simpl in Hrun.
  destruct (Handler_new (handler_arguments (this st)) (env st)) as [[h|e|] env1];
    simpl in Hrun; [|by simplify_eq..].
  destruct (Handler_fetchRequiredTables h (connection (this st)) env1) as [[names|e|] env2];
    simpl in Hrun; [|by simplify_eq..].
  destruct (for_each (iteration names) (register_table h)
              (mkState (set_replication_handler (Some h) (this st)) env2))
    as [[r2 st3] adds] eqn:Hloop.
  apply register_tables_keep_well_formed in Hloop; [|done].
  destruct r2 as [[]|e|]; simpl in Hrun; [|by simplify_eq..].
  destruct (log (this st3)); simpl in Hrun; [|by simplify_eq].
  destruct (Handler_startup h (env st3)) as [r3 env4]. by simplify_eq.
Qed.

Lemma state_after_this (c : MemberCall (AST := AST)) st :
  (∀ context f1 f2, c ≠ CallLoadStoredObjects context f1 f2) →
  this (state_after c st) = this st.
Proof.
  intros Hc. destruct c; simpl.
  - by destruct (Hc context has_force_restore_data_flag force_attach).
  - unfold_run. destruct (from_synchronization context).
    + by destruct (Base_tryGetTable _ _ _).
    + destruct (tables (this st) !! name) as [[rep|]|]; simpl; try done.
      by destruct (isNestedLoaded rep).
  - unfold_run. destruct (from_synchronization context);
      [|by destruct (log (this st))].
    by destruct (Base_createTable _ _ _ _ _).
  - unfold_run. by destruct (Base_dropTable _ _ _ _).
  - unfold_run. destruct (replication_handler (this st)); simpl;
      repeat callee_step; try done;
      repeat match goal with b : bool |- _ => destruct b; simpl end;
      repeat callee_step; done.
  - unfold_run. destruct (replication_handler (this st)); simpl; [|done].
    by destruct (Handler_shutdown _ _).
  - unfold getTablesIterator, bind, get_this, ret, undefined. simpl.
    by destruct (foldl collect_nested _ _).
Qed.

(** In every state the object goes through, the table map holds handles and
    the global context is not the synchronization's: what C3 and C4 ask of
    the table map holds of every such state. *)
Lemma reachable_well_formed st : reachable (AST := AST) st → well_formed (this st).
Proof.
  induction 1 as [context mp dn pdn c s e Hctx|context mp dn pdn c s e Hctx
                 |c st _ IH|st e _ IH|st name nested _ IH].
  - split; [apply map_Forall_empty|done].
  - split; [apply map_Forall_empty|done].
  - destruct c as [context f1 f2| | | | | |];
      try (rewrite state_after_this; [done|]; intros ? ? ? ?; discriminate).
    simpl. unfold loadStoredObjects, bind, call.
    destruct (Base_loadStoredObjects context f1 f2 (env st)) as [[[]|e|] env1]; simpl;
      [|done..].
    destruct (startSynchronization _) as [[r2 st2] t2] eqn:Hsync. simpl.
    by apply startSynchronization_keeps_well_formed in Hsync.
  - done.
  - simpl. destruct IH as [Hreg Hctx]. unfold mark_loaded.
    destruct (tables (this st) !! name) as [[[table_id [|n]]|]|]; try done.
    split; [|done]. simpl. by apply map_Forall_insert_2.
Qed.

(** ** getStorage *)

(** X1. [getStorage] changes no field of the object and, when it returns,
    never returns a null pointer: the test [if (storage)] in
    [startSynchronization] always holds.  With a global context that is not
    the synchronization's it makes no call; it returns the registered handle
    only when that one is Loaded, and a new Pending handle for the name
    both when nothing is registered and when the registered handle is still
    Pending. *)
Theorem getStorage_never_null name st r st' (tr : list Entry) :
  getStorage name st = (r, st', tr) →
  this st' = this st ∧
  (∀ storage, r = Returned storage → is_Some storage) ∧
  (from_synchronization (global_context (this st)) = false →
     st' = st ∧ tr = [] ∧
     (tables (this st) !! name = None → r = Returned (Some (new_handle (this st) name))) ∧
     (∀ rep, tables (this st) !! name = Some (ReplicaStorage rep) →
        r = Returned (Some (if isNestedLoaded rep then ReplicaStorage rep
                            else new_handle (this st) name)))).
Proof.
  unfold getStorage, tryGetTable, new_handle, bind, call, get_this, ret, undefined. simpl.
  destruct (from_synchronization (global_context (this st))) eqn:Hctx.
  - destruct (Base_tryGetTable name (global_context (this st)) (env st))
      as [[[s|]|e|] env1]; simpl; intros Hrun; injection Hrun as <- <- <-; simpl;
      (split; [done|]); (split; [|done]); intros storage ?; by simplify_eq.
  - destruct (tables (this st) !! name) as [[rep|eng tid]|] eqn:Hlook; simpl.
    + destruct (isNestedLoaded rep) eqn:Hl; simpl; intros Hrun;
        injection Hrun as <- <- <-;
        (split; [done|]); (split; [intros storage ?; by simplify_eq|]);
        intros _; (split; [done|]); (split; [done|]);
        (split; [done|]); intros rep' ?; simplify_eq; by rewrite Hl.
    + intros Hrun; injection Hrun as <- <- <-. split; [done|]. split; [done|].
      intros _. split; [done|]. split; [done|]. split; [done|]. done.
    + intros Hrun; injection Hrun as <- <- <-. split; [done|].
      split; [intros storage ?; by simplify_eq|].
      intros _. split; [done|]. split; [done|]. split; [done|]. done.
Qed.

(** ** getTablesIterator: when it is defined *)

Lemma collect_nested_stuck (l : list (string * IStorage)) (r : Outcome Exn Tables) :
  is_returned r = false → foldl collect_nested r l = r.
Proof.
  intros Hr. induction l as [|entry l IH]; [done|]. simpl.
  destruct r; [done|exact IH..].
Qed.

Lemma collect_nested_returned (l : list (string * IStorage)) (acc : Tables) :
  is_returned (foldl (collect_nested (Exn := Exn)) (Returned acc) l) = true →
  Forall (λ entry, is_Some (as_StoragePostgreSQLReplica entry.2)) l.
Proof.
  revert acc. induction l as [|[k s] l IH]; intros acc Hret; [constructor|].
  simpl in Hret. destruct s as [r|eng tid]; simpl in Hret.
  - constructor; [by eexists|]. destruct (tryGetNested r); by eapply IH.
  - rewrite collect_nested_stuck in Hret by done. done.
Qed.

Lemma collect_nested_never_throws (l : list (string * IStorage)) (acc : Tables) e :
  foldl (collect_nested (Exn := Exn)) (Returned acc) l ≠ Threw e.
Proof.
  revert acc. induction l as [|[k s] l IH]; intros acc; [done|]. simpl.
  destruct s as [r|eng tid]; simpl.
  - destruct (tryGetNested r); apply IH.
  - by rewrite collect_nested_stuck.
Qed.

(** X2. [getTablesIterator] makes no call, changes nothing and never
    throws; it returns exactly when every entry of the table map is a
    [StoragePostgreSQLReplica], and has no defined behaviour as soon as one
    entry is a storage of another class, wherever in the map. *)
Theorem getTablesIterator_defined_iff_handles st :
  (getTablesIterator (Exn := Exn) (AST := AST) st).1.2 = st ∧
  (getTablesIterator (Exn := Exn) (AST := AST) st).2 = [] ∧
  (is_returned (getTablesIterator (Exn := Exn) (AST := AST) st).1.1 = true ↔
   registry_of_handles (tables (this st))) ∧
  (is_returned (getTablesIterator (Exn := Exn) (AST := AST) st).1.1 = false ↔
   (getTablesIterator (Exn := Exn) (AST := AST) st).1.1 = Undefined).
Proof.
  unfold getTablesIterator, bind, get_this, ret, undefined. simpl.
  destruct (foldl collect_nested (Returned ∅) (map_to_list (tables (this st))))
    as [res|e|] eqn:Hfold; simpl.
  - repeat split; try done. intros _ k s Hlook.
    assert (Hret : is_returned
              (foldl (collect_nested (Exn := Exn)) (Returned ∅)
                 (map_to_list (tables (this st)))) = true) by by rewrite Hfold.
    apply collect_nested_returned in Hret. rewrite Forall_forall in Hret.
    apply (Hret (k, s)). by apply elem_of_map_to_list.
  - by apply collect_nested_never_throws in Hfold.
  - repeat split; try done. intros Hreg.
    destruct (collect_nested_spec (map_to_list (tables (this st))) ∅) as (res & Hres & _).
    + apply NoDup_fst_map_to_list.
    + apply Forall_forall. intros [k s] Hel. apply elem_of_map_to_list in Hel.
      exact (Hreg _ _ Hel).
    + intros. apply lookup_empty.
    + congruence.
Qed.

(** ** What the calls leave of the object *)

(** X3. Apart from [loadStoredObjects], no member function changes a field
    of the object: not [drop], which leaves the handler pointer set and the
    table map filled, nor [dropTable] or [createTable], which leave the table
    map as it is.  So after any such call, a lookup with a context that is
    not the synchronization's and the enumeration give what they gave
    before. *)
Theorem lookups_unchanged_by_other_calls (c : MemberCall (AST := AST)) st :
  (∀ context f1 f2, c ≠ CallLoadStoredObjects context f1 f2) →
  this (state_after c st) = this st ∧
  (∀ name context, from_synchronization context = false →
     (tryGetTable (AST := AST) name context (state_after c st)).1.1
       = (tryGetTable (AST := AST) name context st).1.1) ∧
  (getTablesIterator (Exn := Exn) (AST := AST) (state_after c st)).1.1
    = (getTablesIterator (Exn := Exn) (AST := AST) st).1.1.
Proof.
  intros Hc. pose proof (state_after_this c st Hc) as Hthis.
  split; [done|]. split.
  - intros name context Hctx. unfold tryGetTable. rewrite Hctx.
    unfold bind, get_this. simpl. rewrite Hthis.
    destruct (tables (this st) !! name) as [[rep|]|]; simpl; try done.
    by destruct (isNestedLoaded rep).
  - unfold getTablesIterator, bind, get_this, ret, undefined. simpl. rewrite Hthis.
    by destruct (foldl collect_nested _ _).
Qed.

(** ** Exceptions leave every member function *)

Lemma fail_stop_run {A} (m : Run A) st i ev :
  fail_stop m → (m st).2 !! i = Some ev → event_outcome ev ≠ Returned tt →
  void (m st).1.1 = event_outcome ev ∧ S i = length (m st).2.
Proof.
  intros Hm Hi Hne. destruct (m st) as [[r st'] tr] eqn:Hrun. simpl in *.
  exact (Hm _ _ _ _ Hrun _ _ Hi Hne).
Qed.

Lemma fail_stop_drop context : fail_stop (drop context : Run _).
Proof.
  unfold drop.
  apply fail_stop_bind; [by apply fail_stop_silent|]. intros d.
  apply fail_stop_bind.
  { destruct (replication_handler d) as [h|]; [|by apply fail_stop_silent].
    apply fail_stop_bind; [fail_stop_call_tac|]. intros _. fail_stop_call_tac. }
  intros _. apply fail_stop_bind; [by apply fail_stop_silent|]. intros base_path.
  apply fail_stop_bind; [fail_stop_call_tac|]. intros present.
  apply fail_stop_bind.
  { destruct present; [fail_stop_call_tac|by apply fail_stop_silent]. }
  intros _. fail_stop_call_tac.
Qed.

(** X4. No member function catches: in the transcript of any call, an entry
    that did not return (it threw, or was undefined) is the last one, and the
    call ends the way that entry did; the calls after it in the source are
    not made. *)
Theorem no_member_function_catches (c : MemberCall (AST := AST)) st i ev :
  transcript_of c st !! i = Some ev →
  event_outcome ev ≠ Returned tt →
  outcome_of c st = event_outcome ev ∧ S i = length (transcript_of c st).
Proof.
  destruct c; simpl; apply fail_stop_run.
  - apply fail_stop_loadStoredObjects.
  - apply fail_stop_tryGetTable.
  - unfold createTable. destruct (from_synchronization context);
      [fail_stop_call_tac|by apply fail_stop_write_log].
  - unfold dropTable. fail_stop_call_tac.
  - apply fail_stop_drop.
  - unfold shutdown. apply fail_stop_bind; [by apply fail_stop_silent|]. intros d.
    destruct (replication_handler d); [fail_stop_call_tac|by apply fail_stop_silent].
  - apply fail_stop_silent. intros st0.
    unfold getTablesIterator, bind, get_this, ret, undefined. simpl.
    by destruct (foldl collect_nested _ _).
Qed.

(** ** drop: the metadata file *)

(** X5. In a run of [drop]: the file is removed only right after its
    existence test returned true, on the path that was tested and not
    recursively; when the test gives anything else there is no removal; the
    base catalog's [drop] is called only when every call before it returned,
    and its outcome is that of [drop]; and the object's fields, the handler
    pointer among them, are left as they were. *)
Theorem drop_removes_only_tested_file context st r st' (tr : list Entry) :
  drop context st = (r, st', tr) →
  this st' = this st ∧
  (∀ i path recursive r1, tr !! i = Some (EFileRemove path recursive r1) →
     recursive = false ∧
     ∃ j, i = S j ∧ tr !! j = Some (EFileExists path (Returned true))) ∧
  (∀ i path r0, tr !! i = Some (EFileExists path r0) → r0 ≠ Returned true →
     ∀ j path' recursive r1, tr !! j ≠ Some (EFileRemove path' recursive r1)) ∧
  (∀ i r0, tr !! i = Some (EBaseDrop context r0) →
     r = r0 ∧ ∀ j ev, j < i → tr !! j = Some ev → event_outcome ev = Returned tt).
Proof.
  intros Hrun. unfold_run.
  destruct (replication_handler (this st)) as [h|] eqn:Hh; simpl in *.
  - repeat callee_step; simplify_eq.
    all: try match goal with b : bool |- _ => destruct b; simpl in * end.
    all: repeat callee_step; simplify_eq.
    all: repeat match goal with u : unit |- _ => destruct u end.
    all: split; [done|]; split; [|split].
    all: try (intros i path recursive r1 Hi; index_cases i; split; [done|];
              eexists; split; [reflexivity|done]).
    all: try (intros i path r0 Hi Hne j path' recursive r1 Hj;
              index_cases i; index_cases j; done).
    all: intros i r0 Hi; index_cases i; split; try done;
         intros j ev Hlt Hj; index_cases j.
  - repeat callee_step; simplify_eq.
    all: try match goal with b : bool |- _ => destruct b; simpl in * end.
    all: repeat callee_step; simplify_eq.
    all: repeat match goal with u : unit |- _ => destruct u end.
    all: split; [done|]; split; [|split].
    all: try (intros i path recursive r1 Hi; index_cases i; split; [done|];
              eexists; split; [reflexivity|done]).
    all: try (intros i path r0 Hi Hne j path' recursive r1 Hj;
              index_cases i; index_cases j; done).
    all: intros i r0 Hi; index_cases i; split; try done;
         intros j ev Hlt Hj; index_cases j.
Qed.

(** ** startSynchronization: what a failure leaves *)

(** Whatever the outcome of the loop, a name whose entry of the table map
    changed has had its [addStorage] return. *)
Lemma register_tables_changes h (l : list string) :
  ∀ st r st' (tr : list Entry),
  for_each l (register_table h) st = (r, st', tr) →
  ∀ name, tables (this st') !! name ≠ tables (this st) !! name →
    ∃ s, EAddStorage h name s (Returned tt) ∈ tr.
Proof.
  induction l as [|x l IH]; intros st r st' tr Hrun name Hne; simpl in Hrun.
  - unfold ret in Hrun. injection Hrun as <- <- <-. done.
  - apply bind_inv in Hrun
      as [(a & st1 & t1 & t2 & Hbody & Hrest & ->)|(r1 & Hbody & Hr1 & _)].
    + apply register_table_spec in Hbody as [_ [(s & _ & Hthis1 & Hadd & _)|[Hna _]]];
        [|by destruct a].
      destruct (decide (x = name)) as [->|Hx].
      * eexists. apply elem_of_app. left. exact Hadd.
      * destruct (IH _ _ _ _ Hrest name) as [s' Hs'].
        { rewrite Hthis1. simpl. by rewrite lookup_insert_ne. }
        exists s'. apply elem_of_app. by right.
    + apply register_table_spec in Hbody as [_ [(s & -> & _)|[_ Hthis1]]]; [done|].
      by rewrite Hthis1 in Hne.
Qed.

(** X6. [startSynchronization] undoes nothing when it fails.  When the
    handler's constructor throws, the object is as before.  Once the
    constructor has returned, the handler pointer is set, whatever fails
    later ([fetchRequiredTables], an [addStorage], [startup]).  And whatever
    the outcome, a name is put into the table map only after its
    [addStorage] returned. *)
Theorem startSynchronization_failure_leaves st r st' (tr : list Entry) :
  startSynchronization st = (r, st', tr) →
  (∀ e env1,
     Handler_new (handler_arguments (this st)) (env st) = (Threw e, env1) →
     r = Threw e ∧ st' = mkState (this st) env1 ∧
     tr = [EHandlerNew (handler_arguments (this st)) (Threw e)]) ∧
  (∀ h env1,
     Handler_new (handler_arguments (this st)) (env st) = (Returned h, env1) →
     replication_handler (this st') = Some h ∧
     (∀ e env2,
        Handler_fetchRequiredTables h (connection (this st)) env1 = (Threw e, env2) →
        r = Threw e ∧ tables (this st') = tables (this st) ∧
        tr = [EHandlerNew (handler_arguments (this st)) (Returned h);
              EFetchRequiredTables h (connection (this st)) (Threw e)])) ∧
  (∀ name, tables (this st') !! name ≠ tables (this st) !! name →
     ∃ h s, EAddStorage h name s (Returned tt) ∈ tr).
Proof.
  intros Hrun.
  unfold startSynchronization, bind, get_this, call, modify_this, write_log in Hrun.
  simpl in Hrun.
  destruct (Handler_new (handler_arguments (this st)) (env st)) as [[h|e|] env1] eqn:Hnew;
    simpl in Hrun.
  2,3: injection Hrun as <- <- <-; simpl;
       (split; [intros ? ? ?; by simplify_eq|]); (split; [intros ? ? ?; by simplify_eq|]);
       done.
  split; [intros ? ? ?; by simplify_eq|].
  destruct (Handler_fetchRequiredTables h (connection (this st)) env1)
    as [[names|e|] env2] eqn:Hfetch; simpl in Hrun.
  2,3: injection Hrun as <- <- <-; simpl; split; [|done];
       intros h' env1' ?; simplify_eq; split; [done|];
       intros e' env2' Hf; rewrite Hfetch in Hf; by simplify_eq.
  destruct (for_each (iteration names) (register_table h)
              (mkState (set_replication_handler (Some h) (this st)) env2))
    as [[r2 st3] adds] eqn:Hloop.
  destruct (register_tables_spec h (iteration names) (iteration_NoDup names) _ _ _ _ Hloop)
    as (t' & Hthis3 & _).
  pose proof (register_tables_changes h _ _ _ _ _ Hloop) as Hchanges.
  simpl in Hthis3, Hchanges.
  assert (Hthis' : this st' = this st3).
  { destruct r2 as [[]|e|]; simpl in Hrun; [|by simplify_eq..].
    destruct (log (this st3)); simpl in Hrun; [|by simplify_eq].
    destruct (Handler_startup h (env st3)) as [r3 env4]. by simplify_eq. }
  assert (Hadds : ∀ ev, ev ∈ adds → ev ∈ tr).
  { intros ev Hev. destruct r2 as [[]|e|]; simpl in Hrun.
    - destruct (log (this st3)); simpl in Hrun.
      + destruct (Handler_startup h (env st3)) as [r3 env4]. simplify_eq. set_solver.
      + simplify_eq. set_solver.
    - simplify_eq. set_solver.
    - simplify_eq. set_solver. }
  rewrite Hthis'. split.
  - intros h' env1' ?. simplify_eq. split; [by rewrite Hthis3|].
    intros e env2' Hf. rewrite Hfetch in Hf. by simplify_eq.
  - intros name Hne. destruct (Hchanges name Hne) as [s Hs]. exists h, s. by apply Hadds.
Qed.

(** ** startSynchronization on a new object *)

Lemma register_table_fresh h name st st' (tr : list Entry) :
  from_synchronization (global_context (this st)) = false →
  tables (this st) !! name = None →
  register_table h name st = (Returned tt, st', tr) →
  Handler_addStorage h name (as_StoragePostgreSQLReplica (new_handle (this st) name)) (env st)
    = (Returned tt, env st') ∧
  this st' = set_tables (<[name := new_handle (this st) name]> (tables (this st))) (this st) ∧
  tr = [EAddStorage h name (as_StoragePostgreSQLReplica (new_handle (this st) name))
          (Returned tt)].
Proof.
  intros Hctx Hlook.
  unfold register_table, getStorage, tryGetTable, new_handle.
  unfold bind, call, get_this, modify_this, ret. simpl. rewrite Hctx, Hlook. simpl.
  destruct (Handler_addStorage h name _ (env st)) as [[[]|e|] env1]; simpl;
    intros Hrun; by simplify_eq.
Qed.

Lemma register_fresh_tables h (l : list string) :
  NoDup l → ∀ st st' (tr : list Entry),
  from_synchronization (global_context (this st)) = false →
  (∀ name, name ∈ l → tables (this st) !! name = None) →
  for_each l (register_table h) st = (Returned tt, st', tr) →
  ∃ t',
    this st' = set_tables t' (this st) ∧
    (∀ name, t' !! name = if decide (name ∈ l) then Some (new_handle (this st) name)
                          else tables (this st) !! name) ∧
    tr = registration_entry h t' <$> l ∧
    added_in_turn h (database_name (this st)) l (env st) (env st').
Proof.
  induction l as [|x l IH]; intros Hnd st st' tr Hctx Hfree Hrun; simpl in Hrun.
  - unfold ret in Hrun. injection Hrun as <- <-.
    exists (tables (this st)). split; [by destruct (this st)|]. split; [|done].
    intros name. rewrite decide_False; [done|]. apply not_elem_of_nil.
  - apply NoDup_cons in Hnd as [Hx Hnd].
    apply bind_inv in Hrun
      as [(a & st1 & t1 & t2 & Hbody & Hrest & ->)|(r1 & _ & Hr1 & Hvoid)];
      [|by destruct r1].
    destruct a.
    apply register_table_fresh in Hbody as (Hadd & Hthis1 & ->);
      [|done|apply Hfree; by left].
    destruct (IH Hnd st1 st' t2) as (t' & Hthis' & Hlook & -> & Hturn);
      [by rewrite Hthis1| |done|].
    { intros name Hin. rewrite Hthis1. simpl.
      rewrite lookup_insert_ne by (intros ->; done). apply Hfree. by right. }
    rewrite Hthis1 in Hthis', Hlook, Hturn. simpl in Hthis', Hlook, Hturn.
    exists t'. split; [done|].
    assert (Hnew : ∀ t name, new_handle (set_tables t (this st)) name
                             = new_handle (this st) name) by done.
    assert (Hx' : t' !! x = Some (new_handle (this st) x)).
    { rewrite Hlook, decide_False by done. by rewrite lookup_insert_eq. }
    split; [|split].
    + intros name. rewrite Hlook, Hnew.
      destruct (decide (name = x)) as [->|Hne].
      * rewrite decide_False by done. rewrite lookup_insert_eq.
        rewrite decide_True; [done|by left].
      * rewrite lookup_insert_ne by done.
        destruct (decide (name ∈ l)) as [Hin|Hnot].
        -- rewrite decide_True; [done|by right].
        -- rewrite decide_False; [done|]. by apply not_elem_of_cons.
    + simpl. f_equal. unfold registration_entry. by rewrite Hx'.
    + simpl. exists (env st1). split; [exact Hadd|exact Hturn].
Qed.

(** What a returned [startSynchronization] on an empty table map, with a
    global context that is not the synchronization's, has done. *)
Lemma startSynchronization_fresh st st' (tr : list Entry) :
  tables (this st) = ∅ →
  from_synchronization (global_context (this st)) = false →
  startSynchronization st = (Returned tt, st', tr) →
  ∃ h names e1 e2 e3,
    Handler_new (handler_arguments (this st)) (env st) = (Returned h, e1) ∧
    Handler_fetchRequiredTables h (connection (this st)) e1 = (Returned names, e2) ∧
    added_in_turn h (database_name (this st)) (iteration names) e2 e3 ∧
    Handler_startup h e3 = (Returned tt, env st') ∧
    tr = [EHandlerNew (handler_arguments (this st)) (Returned h);
          EFetchRequiredTables h (connection (this st)) (Returned names)]
         ++ (registration_entry h (tables (this st')) <$> iteration names)
         ++ [ELogTrace "Loaded {} tables. Starting synchronization"
               (size (tables (this st')));
             EStartup h (Returned tt)] ∧
    database_name (this st') = database_name (this st) ∧
    replication_handler (this st') = Some h ∧
    ∀ name, tables (this st') !! name =
              if decide (name ∈ iteration names) then Some (new_handle (this st) name)
              else None.
Proof.
  intros Hempty Hctx Hrun.
  unfold startSynchronization, bind, get_this, call, modify_this, write_log in Hrun.
  simpl in Hrun.
  destruct (Handler_new (handler_arguments (this st)) (env st)) as [[h|e|] env1] eqn:Hnew;
    simpl in Hrun; [|by simplify_eq..].
  destruct (Handler_fetchRequiredTables h (connection (this st)) env1)
    as [[names|e|] env2] eqn:Hfetch; simpl in Hrun; [|by simplify_eq..].
  destruct (for_each (iteration names) (register_table h)
              (mkState (set_replication_handler (Some h) (this st)) env2))
    as [[r2 st3] adds] eqn:Hloop.
  destruct r2 as [[]|e|]; simpl in Hrun; [|by simplify_eq..].
  apply register_fresh_tables in Hloop as (t' & Hthis3 & Hlook & -> & Hturn);
    [|apply iteration_NoDup|done|by intros; simpl; rewrite Hempty].
  simpl in Hthis3, Hlook, Hturn.
  destruct (log (this st3)); simpl in Hrun; [|by simplify_eq].
  destruct (Handler_startup h (env st3)) as [[[]|e|] env4] eqn:Hstart; simpl in Hrun;
    [|by simplify_eq..].
  injection Hrun as <- <-. simpl. rewrite Hthis3. simpl.
  exists h, names, env1, env2, (env st3). split; [done|]. split; [done|].
  split; [done|]. split; [done|]. split; [done|]. split; [done|]. split; [done|].
  intros name. rewrite Hlook, Hempty, lookup_empty. done.
Qed.

(** X7. On a new object, with a global context that is not the
    synchronization's, a returned [startSynchronization] has made exactly
    these calls, each on the environment the one before left: the handler's
    constructor, [fetchRequiredTables], then, in the set's order of
    iteration, one [addStorage] for each name of the set (none twice, none
    for any other name) with the new Pending handle made for it, and
    [startup], whose environment is the one after.  The transcript lists
    them in that order; the trace message reports as many tables as the set
    has names; and the table map holds those handles under those names and
    nothing else. *)
Theorem startSynchronization_fresh_transcript st st' (tr : list Entry) :
  tables (this st) = ∅ →
  from_synchronization (global_context (this st)) = false →
  startSynchronization st = (Returned tt, st', tr) →
  ∃ h names e1 e2 e3,
    Handler_new (handler_arguments (this st)) (env st) = (Returned h, e1) ∧
    Handler_fetchRequiredTables h (connection (this st)) e1 = (Returned names, e2) ∧
    added_in_turn h (database_name (this st)) (iteration names) e2 e3 ∧
    Handler_startup h e3 = (Returned tt, env st') ∧
    replication_handler (this st') = Some h ∧
    tr = [EHandlerNew (handler_arguments (this st)) (Returned h);
          EFetchRequiredTables h (connection (this st)) (Returned names)]
         ++ ((λ name, EAddStorage h name
                        (Some (mkReplica (mkStorageID (database_name (this st)) name) Pending))
                        (Returned tt)) <$> iteration names)
         ++ [ELogTrace "Loaded {} tables. Starting synchronization"
               (length (iteration names));
             EStartup h (Returned tt)] ∧
    length tr = length (iteration names) + 4 ∧
    ∀ name, tables (this st') !! name =
              if decide (name ∈ iteration names)
              then Some (ReplicaStorage
                           (mkReplica (mkStorageID (database_name (this st)) name) Pending))
              else None.
Proof.
  intros Hempty Hctx Hrun.
  destruct (startSynchronization_fresh _ _ _ Hempty Hctx Hrun)
    as (h & names & e1 & e2 & e3 & Hnew & Hfetch & Hturn & Hstart & -> & _ & Hh & Hlook).
  exists h, names, e1, e2, e3.
  assert (Hsize : size (tables (this st')) = length (iteration names)).
  { rewrite <- size_dom.
    replace (dom (tables (this st'))) with (contents names).
    - unfold contents. rewrite size_list_to_set; [done|apply iteration_NoDup].
    - apply set_eq. intros name. unfold contents.
      rewrite elem_of_list_to_set, elem_of_dom, Hlook.
      destruct (decide (name ∈ iteration names)); [by split; eauto|].
      split; [done|by intros [? ?]]. }
  assert (Hentries :
    (registration_entry h (tables (this st')) <$> iteration names : list Entry) =
    (λ name, EAddStorage h name
               (Some (mkReplica (mkStorageID (database_name (this st)) name) Pending))
               (Returned tt)) <$> iteration names).
  { apply list_fmap_ext. intros i name Hi. unfold registration_entry.
    rewrite Hlook, decide_True; [done|]. by eapply list_elem_of_lookup_2. }
  rewrite Hentries, Hsize. split; [done|]. split; [done|]. split; [done|].
  split; [done|]. split; [done|]. split; [done|]. split; [|exact Hlook].
  simpl. rewrite length_app, length_fmap. simpl. lia.
Qed.

(** X8. Right after such a [startSynchronization] nothing is visible yet:
    every handle is Pending, so the enumeration is empty and a lookup with a
    context that is not the synchronization's returns a null pointer for
    every name, the required ones included. *)
Theorem nothing_visible_after_startSynchronization st st' (tr : list Entry) :
  tables (this st) = ∅ →
  from_synchronization (global_context (this st)) = false →
  startSynchronization st = (Returned tt, st', tr) →
  getTablesIterator (Exn := Exn) (AST := AST) st'
    = (Returned (mkSnapshot ∅ (database_name (this st))), st', []) ∧
  ∀ name context, from_synchronization context = false →
    tryGetTable (AST := AST) name context st' = (Returned None, st', []).
Proof.
  intros Hempty Hctx Hrun.
  destruct (startSynchronization_fresh _ _ _ Hempty Hctx Hrun)
    as (h & names & _ & _ & _ & _ & _ & _ & _ & _ & Hdb & _ & Hlook).
  assert (Hpending : ∀ name s, tables (this st') !! name = Some s →
                       s = new_handle (this st) name).
  { intros name s. rewrite Hlook.
    destruct (decide (name ∈ iteration names)); congruence. }
  split.
  - unfold getTablesIterator, bind, get_this, ret. simpl.
    destruct (collect_nested_spec (map_to_list (tables (this st'))) ∅)
      as (res & Hres & Hin & Hout).
    { apply NoDup_fst_map_to_list. }
    { apply Forall_forall. intros [k s] Hel. apply elem_of_map_to_list in Hel.
      simpl. rewrite (Hpending _ _ Hel). by eexists. }
    { intros. apply lookup_empty. }
    rewrite Hres, Hdb. simpl. repeat f_equal. apply map_eq. intros name.
    rewrite lookup_empty.
    destruct (tables (this st') !! name) as [s|] eqn:Hs.
    + rewrite (Hin name s) by by apply elem_of_map_to_list.
      by rewrite (Hpending _ _ Hs).
    + rewrite Hout; [apply lookup_empty|].
      intros Hel. apply list_elem_of_fmap in Hel as ([k s] & -> & Hel).
      apply elem_of_map_to_list in Hel. simpl in Hs. congruence.
  - intros name context Hc. unfold tryGetTable. rewrite Hc.
    unfold bind, get_this, ret. simpl.
    destruct (tables (this st') !! name) as [s|] eqn:Hs; [|done].
    by rewrite (Hpending _ _ Hs).
Qed.

(** ** A storage of another class in the table map *)

(** X9. The loop of [startSynchronization] does not test what
    [as<StoragePostgreSQLReplica>()] gives.  When the global context is the
    synchronization's and the base catalog has under the name a storage of
    another class, [addStorage] is given a null pointer and that storage is
    put into the table map; from then on a lookup of the name with a context
    that is not the synchronization's, and the enumeration, have no defined
    behaviour. *)
Theorem register_table_foreign_storage h name st engine_name table_id env1 env2 :
  from_synchronization (global_context (this st)) = true →
  Base_tryGetTable name (global_context (this st)) (env st)
    = (Returned (Some (OtherStorage engine_name table_id)), env1) →
  Handler_addStorage h name None env1 = (Returned tt, env2) →
  let st' :=
    mkState (set_tables (<[name := OtherStorage engine_name table_id]> (tables (this st)))
               (this st)) env2 in
  register_table (AST := AST) h name st =
    (Returned tt, st',
     [EBaseTryGetTable name (global_context (this st))
        (Returned (Some (OtherStorage engine_name table_id)));
      EAddStorage h name None (Returned tt)]) ∧
  (∀ context, from_synchronization context = false →
     tryGetTable (AST := AST) name context st' = (Undefined, st', [])) ∧
  getTablesIterator (Exn := Exn) (AST := AST) st' = (Undefined, st', []).
Proof.
  intros Hctx Hbase Hadd st'. split; [|split].
  - unfold register_table, getStorage, tryGetTable.
    unfold bind, call, get_this, modify_this, ret. simpl.
    rewrite Hctx, Hbase. simpl. rewrite Hadd. done.
  - intros context Hc. unfold tryGetTable. rewrite Hc.
    unfold bind, get_this, undefined. simpl. by rewrite lookup_insert_eq.
  - unfold getTablesIterator, bind, get_this, ret, undefined. simpl.
    destruct (foldl collect_nested (Returned ∅) _) as [res|e|] eqn:Hfold; [| |done].
    + assert (Hret : is_returned
                (foldl (collect_nested (Exn := Exn)) (Returned ∅)
                   (map_to_list
                      (<[name := OtherStorage engine_name table_id]> (tables (this st)))))
                = true) by by rewrite Hfold.
      apply collect_nested_returned in Hret. rewrite Forall_forall in Hret.
      destruct (Hret (name, OtherStorage engine_name table_id)) as [? ?]; [|done].
      apply elem_of_map_to_list. by rewrite lookup_insert_eq.
    + by apply collect_nested_never_throws in Hfold.
Qed.

(** ** The table map holds handles: what follows *)

(** X10. With a global context that is not the synchronization's,
    [loadStoredObjects] puts only [StoragePostgreSQLReplica] objects into the
    table map, whatever the base catalog and the handler do and however it
    ends: a table map that held handles before holds handles after. *)
Theorem loadStoredObjects_registers_only_handles context f1 f2 st r st' (tr : list Entry) :
  loadStoredObjects context f1 f2 st = (r, st', tr) →
  from_synchronization (global_context (this st)) = false →
  registry_of_handles (tables (this st)) →
  registry_of_handles (tables (this st')) ∧
  global_context (this st') = global_context (this st).
Proof.
  intros Hrun Hctx Hreg. unfold loadStoredObjects, bind, call in Hrun.
  destruct (Base_loadStoredObjects context f1 f2 (env st)) as [[[]|e|] env1];
    simpl in Hrun; [|by simplify_eq..].
  destruct (startSynchronization _) as [[r2 st2] t2] eqn:Hsync. simplify_eq.
  assert (Hctx' : global_context (this st') = global_context (this st)).
  { unfold startSynchronization, bind, get_this, call, modify_this, write_log in Hsync.
    simpl in Hsync.
    destruct (Handler_new _ _) as [[h|e|] env2]; simpl in Hsync; [|by simplify_eq..].
    destruct (Handler_fetchRequiredTables _ _ _) as [[names|e|] env3];
      simpl in Hsync; [|by simplify_eq..].
    destruct (for_each _ _ _) as [[r3 st3] adds] eqn:Hloop.
    destruct (register_tables_spec h _ (iteration_NoDup names) _ _ _ _ Hloop)
      as (t' & Hthis3 & _).
    destruct r3 as [[]|e|]; simpl in Hsync.
    - destruct (log (this st3)); simpl in Hsync.
      + destruct (Handler_startup _ _) as [r4 env4]. simplify_eq. by rewrite Hthis3.
      + simplify_eq. by rewrite Hthis3.
    - simplify_eq. by rewrite Hthis3.
    - simplify_eq. by rewrite Hthis3. }
  split; [|done].
  by destruct (startSynchronization_keeps_well_formed _ _ _ _ Hsync).
Qed.

(** X11. In every state an object goes through (built by either
    constructor with a global context that is not the synchronization's,
    then any calls of member functions, any changes of the environment, any
    handles getting loaded), a lookup with a context that is not the
    synchronization's returns normally without a call, and the enumeration
    returns: the unchecked casts never meet a storage of another class. *)
Theorem reachable_lookups_defined st :
  reachable (AST := AST) st →
  (∀ name context, from_synchronization context = false →
     ∃ result, tryGetTable (AST := AST) name context st = (Returned result, st, [])) ∧
  ∃ snap, getTablesIterator (Exn := Exn) (AST := AST) st = (Returned snap, st, []).
Proof.
  intros Hreach. destruct (reachable_well_formed _ Hreach) as [Hreg _]. split.
  - intros name context Hc. unfold tryGetTable. rewrite Hc.
    unfold bind, get_this, ret. simpl.
    destruct (tables (this st) !! name) as [s|] eqn:Hs; [|by eexists].
    destruct (Hreg _ _ Hs) as [rep ->]. destruct (isNestedLoaded rep); by eexists.
  - unfold getTablesIterator, bind, get_this, ret. simpl.
    destruct (collect_nested_spec (map_to_list (tables (this st))) ∅) as (res & -> & _).
    + apply NoDup_fst_map_to_list.
    + apply Forall_forall. intros [k s] Hel. apply elem_of_map_to_list in Hel.
      exact (Hreg _ _ Hel).
    + intros. apply lookup_empty.
    + by eexists.
Qed.

(** ** The logger of an object built for [DatabaseAtomic] *)

(** [startSynchronization] on an object whose [log] was never given a
    value. *)
Lemma startSynchronization_without_log st r st' (tr : list Entry) :
  log (this st) = None →
  startSynchronization st = (r, st', tr) →
  r ≠ Returned tt ∧
  Forall (λ ev, is_startup_event ev = false) tr ∧
  log (this st') = None ∧
  (∀ h e1 names e2 st3 adds,
     Handler_new (handler_arguments (this st)) (env st) = (Returned h, e1) →
     Handler_fetchRequiredTables h (connection (this st)) e1 = (Returned names, e2) →
     for_each (iteration names) (register_table h)
       (mkState (set_replication_handler (Some h) (this st)) e2) = (Returned tt, st3, adds) →
     r = Undefined ∧ st' = st3 ∧
     tr = [EHandlerNew (handler_arguments (this st)) (Returned h);
           EFetchRequiredTables h (connection (this st)) (Returned names)] ++ adds).
Proof.
  intros Hlog Hrun.
  unfold startSynchronization, bind, get_this, call, modify_this, write_log in Hrun.
  simpl in Hrun.
  assert (Hall : ∀ h e1 names e2 st3 adds,
     Handler_new (handler_arguments (this st)) (env st) = (Returned h, e1) →
     Handler_fetchRequiredTables h (connection (this st)) e1 = (Returned names, e2) →
     for_each (iteration names) (register_table h)
       (mkState (set_replication_handler (Some h) (this st)) e2) = (Returned tt, st3, adds) →
     r = Undefined ∧ st' = st3 ∧
     tr = [EHandlerNew (handler_arguments (this st)) (Returned h);
           EFetchRequiredTables h (connection (this st)) (Returned names)] ++ adds).
  { intros h e1 names e2 st3 adds Hnew Hfetch Hloop.
    destruct (register_tables_spec h (iteration names) (iteration_NoDup names) _ _ _ _ Hloop)
      as (t' & Hthis3 & _).
    rewrite Hnew in Hrun. simpl in Hrun. rewrite Hfetch in Hrun. simpl in Hrun.
    rewrite Hloop in Hrun. simpl in Hrun.
    rewrite Hthis3 in Hrun. simpl in Hrun. rewrite Hlog in Hrun. simpl in Hrun.
    injection Hrun as <- <- <-. by rewrite app_nil_r. }
  split; [|split; [|split; [|exact Hall]]]; clear Hall.
  all: destruct (Handler_new (handler_arguments (this st)) (env st))
         as [[h|e|] env1] eqn:Hnew; simpl in Hrun;
       [|by injection Hrun as <- <- <-; repeat constructor..].
  all: destruct (Handler_fetchRequiredTables h (connection (this st)) env1)
         as [[names|e|] env2] eqn:Hfetch; simpl in Hrun;
       [|by injection Hrun as <- <- <-; repeat constructor..].
  all: destruct (for_each (iteration names) (register_table h)
                   (mkState (set_replication_handler (Some h) (this st)) env2))
         as [[r2 st3] adds] eqn:Hloop.
  all: destruct (register_tables_spec h (iteration names) (iteration_NoDup names)
                   _ _ _ _ Hloop) as (t' & Hthis3 & _ & Hadds' & _).
  all: simpl in Hthis3, Hadds'.
  all: assert (Hquiet : Forall (λ ev : Entry, is_startup_event ev = false) adds)
         by (eapply Forall_impl; [exact Hadds'|];
             intros ev (name & _ & Hev); by eapply registration_not_startup).
  all: assert (Hlog3 : log (this st3) = None) by (by rewrite Hthis3).
  all: destruct r2 as [[]|e|]; simpl in Hrun;
       [rewrite Hlog3 in Hrun; simpl in Hrun|..].
  all: injection Hrun as <- <- <-; try done.
  all: rewrite ?app_nil_r; by repeat (constructor; [done|]).
Qed.

(** X13. An object whose [log] was never given a value, as the constructor
    for [DatabaseAtomic] leaves it, never starts replication.
    [startSynchronization] does not return on it and calls no [startup]: when
    the handler's constructor, [fetchRequiredTables] and the loop over the
    names all return, the trace message reads the pointer and the behaviour
    is undefined, with the handler set and the tables registered but the
    handler not started.  [loadStoredObjects], which ends with
    [startSynchronization], does not return either.  No member function sets
    [log], so this holds after any call as before. *)
Theorem startSynchronization_needs_log st :
  log (this st) = None →
  (∀ r st' tr, startSynchronization st = (r, st', tr) →
     r ≠ Returned tt ∧
     Forall (λ ev, is_startup_event ev = false) tr ∧
     log (this st') = None ∧
     (∀ h e1 names e2 st3 adds,
        Handler_new (handler_arguments (this st)) (env st) = (Returned h, e1) →
        Handler_fetchRequiredTables h (connection (this st)) e1 = (Returned names, e2) →
        for_each (iteration names) (register_table h)
          (mkState (set_replication_handler (Some h) (this st)) e2)
          = (Returned tt, st3, adds) →
        r = Undefined ∧ st' = st3 ∧
        tr = [EHandlerNew (handler_arguments (this st)) (Returned h);
              EFetchRequiredTables h (connection (this st)) (Returned names)] ++ adds)) ∧
  (∀ context f1 f2 r st' (tr : list Entry),
     loadStoredObjects context f1 f2 st = (r, st', tr) →
     r ≠ Returned tt ∧
     Forall (λ ev, is_startup_event ev = false) tr ∧
     log (this st') = None) ∧
  (∀ c, log (this (state_after c st)) = None).
Proof.
  intros Hlog. split; [|split].
  - intros r st' tr Hrun. by apply startSynchronization_without_log.
  - intros context f1 f2 r st' tr Hrun.
    unfold loadStoredObjects, bind, call in Hrun. simpl in Hrun.
    destruct (Base_loadStoredObjects context f1 f2 (env st)) as [[[]|e|] env0] eqn:Hbase;
      simpl in Hrun.
    2,3: injection Hrun as <- <- <-; split; [done|]; split; [by repeat constructor|done].
    destruct (startSynchronization (mkState (this st) env0)) as [[r1 st1] tr1] eqn:Hsync.
    injection Hrun as <- <- <-.
    destruct (startSynchronization_without_log (mkState (this st) env0) _ _ _ Hlog Hsync) as (Hr & Hquiet & Hl & _).
    split; [done|]. split; [by constructor|done].
  - intros c. destruct c; [|by rewrite state_after_this..]. simpl.
    destruct (loadStoredObjects context has_force_restore_data_flag force_attach st)
      as [[r st'] tr] eqn:Hrun. simpl.
    unfold loadStoredObjects, bind, call in Hrun. simpl in Hrun.
    destruct (Base_loadStoredObjects context has_force_restore_data_flag force_attach
                (env st)) as [[[]|e|] env0] eqn:Hbase; simpl in Hrun.
    2,3: by injection Hrun as <- <- <-.
    destruct (startSynchronization (mkState (this st) env0)) as [[r1 st1] tr1] eqn:Hsync.
    injection Hrun as <- <- <-.
    by destruct (startSynchronization_without_log (mkState (this st) env0) _ _ _ Hlog Hsync) as (_ & _ & Hl & _).
Qed.

End EngineProperties.

(** * Properties of the interpreter's constructor *)

Section InterpreterProperties.

Import Interpreter.
Context {AST : Type}.

(** C9. The interpreter made by the constructor has, in its context: under
    [_shard_num] the one-row constant [UInt32] column of that name holding
    the shard number when the options have one, and what the given context
    had there when they have none; the same under [_shard_count] for the
    shard count; and under every other name what the given context had.  The
    constructor taking a [ContextPtr] gives the same interpreter. *)
Theorem constructor_injects_shard_scalars
    (query : AST) (c : Interpreter.Context) (o : SelectQueryOptions) :
  let i := new_with_mutable_context query c o in
  (∀ n, shard_num o = Some n →
     special_scalars (context i) !! "_shard_num" =
       Some [mkColumn (mkColumnConst 1 n) DataTypeUInt32 "_shard_num"]) ∧
  (∀ n, shard_count o = Some n →
     special_scalars (context i) !! "_shard_count" =
       Some [mkColumn (mkColumnConst 1 n) DataTypeUInt32 "_shard_count"]) ∧
  (shard_num o = None →
     special_scalars (context i) !! "_shard_num" = special_scalars c !! "_shard_num") ∧
  (shard_count o = None →
     special_scalars (context i) !! "_shard_count" = special_scalars c !! "_shard_count") ∧
  (∀ other, other ≠ "_shard_num" → other ≠ "_shard_count" →
     special_scalars (context i) !! other = special_scalars c !! other) ∧
  (shard_num o = None → shard_count o = None → context i = c) ∧
  new_with_context query c o = i.
Proof.
  unfold new_with_context, new_with_mutable_context, createCopy, addSpecialScalar. simpl.
  destruct (shard_num o) as [n|], (shard_count o) as [m|]; simpl;
    repeat split; intros; simplify_eq;
    repeat (rewrite lookup_insert_eq || rewrite lookup_insert_ne by done); done.
Qed.

(** X12. An interpreter built on the context of another one (a subquery's
    on its parent's) inherits the shard scalars: an option it has itself
    replaces the parent's scalar, an option it lacks leaves the parent's
    scalar in place, it is not cleared.  Built with the same options the
    context is the parent's unchanged.  Whatever the options, the
    interpreter's [getMaxStreams] is the [max_threads] of the first context,
    its sample block is empty and [usesViewSource] is false. *)
Theorem nested_interpreter_inherits_shard_scalars
    (q1 q2 : AST) (c : Interpreter.Context) (o1 o2 : SelectQueryOptions) :
  let outer := new_with_mutable_context q1 c o1 in
  let inner := new_with_context q2 (context outer) o2 in
  (∀ n, shard_num o2 = Some n →
     special_scalars (context inner) !! "_shard_num" = Some (scalar_block "_shard_num" n)) ∧
  (∀ n, shard_num o2 = None → shard_num o1 = Some n →
     special_scalars (context inner) !! "_shard_num" = Some (scalar_block "_shard_num" n)) ∧
  (∀ n, shard_count o2 = Some n →
     special_scalars (context inner) !! "_shard_count"
       = Some (scalar_block "_shard_count" n)) ∧
  (∀ n, shard_count o2 = None → shard_count o1 = Some n →
     special_scalars (context inner) !! "_shard_count"
       = Some (scalar_block "_shard_count" n)) ∧
  (o2 = o1 → context inner = context outer) ∧
  getMaxStreams inner = max_threads c ∧
  getSampleBlock inner = [] ∧
  usesViewSource inner = false.
Proof.
  unfold new_with_context, new_with_mutable_context, createCopy, addSpecialScalar,
    getMaxStreams, getSampleBlock, usesViewSource.
  simpl. repeat split.
  - intros n ->. destruct (shard_count o2); simpl;
      repeat (rewrite lookup_insert_eq || rewrite lookup_insert_ne by done); done.
  - intros n -> ->. destruct (shard_count o2), (shard_count o1); simpl;
      repeat (rewrite lookup_insert_eq || rewrite lookup_insert_ne by done); done.
  - intros n ->. destruct (shard_num o2); simpl; by rewrite lookup_insert_eq.
  - intros n -> ->. destruct (shard_num o2), (shard_num o1); simpl;
      repeat (rewrite lookup_insert_eq || rewrite lookup_insert_ne by done); done.
  - intros ->. destruct (shard_num o1) as [n|], (shard_count o1) as [m|]; simpl;
      f_equal; try done; apply map_eq; intros k;
      destruct (decide (k = "_shard_count")) as [->|]; try destruct (decide (k = "_shard_num")) as [->|];
      repeat (rewrite lookup_insert_eq || rewrite lookup_insert_ne by done); done.
  - by destruct (shard_num o1), (shard_count o1), (shard_num o2), (shard_count o2).
Qed.

End InterpreterProperties.

(** * Runs on the small catalog *)

Section Runs.

Import Demo.

(** A client without a query context asks for [orders].  On the object the
    constructor for [DatabaseAtomic] made, the warning reads the logger that
    was never set; on the one the constructor for [DatabaseOrdinary] made,
    only the warning is written. *)
Lemma createTable_unprivileged_reads_log_witness :
  from_synchronization plain_context = false ∧
  createTable plain_context "orders" (Some loaded_orders) "CREATE TABLE orders" atomic_state =
    (Undefined, atomic_state, []) ∧
  createTable plain_context "orders" (Some loaded_orders) "CREATE TABLE orders" started_state =
    (Returned tt, started_state,
     [ELogWarning
        "Create table query allowed only for ReplacingMergeTree engine and from synchronization thread"]).
Proof.
  split; [reflexivity|]. split.
  - destruct (createTable_unprivileged_reads_log plain_context "orders" (Some loaded_orders)
                "CREATE TABLE orders" atomic_state eq_refl) as (_ & _ & Hatomic).
    eapply Hatomic. reflexivity.
  - destruct (createTable_unprivileged_reads_log plain_context "orders" (Some loaded_orders)
                "CREATE TABLE orders" started_state eq_refl) as (Hlog & _).
    eapply Hlog. reflexivity.
Defined.

(** The synchronization asks for [orders]: the base catalog decides. *)
Lemma createTable_privileged_delegates_witness :
  from_synchronization synchronization_context = true ∧
  createTable synchronization_context "orders" (Some loaded_orders) "CREATE TABLE orders"
      started_state =
    underlying_createTable synchronization_context "orders" (Some loaded_orders)
      "CREATE TABLE orders" started_state.
Proof.
  split; [vm_compute; reflexivity|].
  apply (createTable_privileged_delegates synchronization_context "orders"
           (Some loaded_orders) "CREATE TABLE orders" started_state).
  vm_compute. reflexivity.
Defined.

(** [orders] is Loaded and is returned; [customers] is Pending and is not. *)
Lemma tryGetTable_unprivileged_loaded_only_witness :
  (tryGetTable (AST := string) "orders" plain_context started_state).1.1
    = Returned (Some loaded_orders) ∧
  (tryGetTable (AST := string) "customers" plain_context started_state).1.1 = Returned None ∧
  ∃ result,
    tryGetTable (AST := string) "customers" plain_context started_state
      = (Returned result, started_state, []) ∧
    ∀ s, result = Some s ↔
         tables (this started_state) !! "customers" = Some s ∧
         ∃ r nested, s = ReplicaStorage r ∧ replica_state r = Loaded nested ∧
                     tryGetNested r = Some nested.
Proof.
  split; [vm_compute; reflexivity|]. split; [vm_compute; reflexivity|].
  apply (tryGetTable_unprivileged_loaded_only "customers" plain_context started_state).
  - reflexivity.
  - apply (bool_decide_unpack _). vm_compute. reflexivity.
Defined.

(** The snapshot lists [orders] and not [customers]. *)
Lemma getTablesIterator_lists_loaded_only_witness :
  ∃ snap,
    getTablesIterator (Exn := string) (AST := string) started_state
      = (Returned snap, started_state, []) ∧
    snapshot_database_name snap = "db" ∧
    snapshot_tables snap !! "customers" = None ∧
    is_Some (snapshot_tables snap !! "orders").
Proof.
  destruct (getTablesIterator_lists_loaded_only (Exn := string) (AST := string) started_state)
    as (snap & Hrun & Hname & Hchar & _).
  { apply (bool_decide_unpack _). vm_compute. reflexivity. }
  exists snap. split; [exact Hrun|]. split; [exact Hname|]. split.
  - destruct (snapshot_tables snap !! "customers") as [nested|] eqn:E; [|reflexivity].
    apply Hchar in E as (r & Hlook & Hnested).
    vm_compute in Hlook. injection Hlook as <-. discriminate Hnested.
  - eexists. apply Hchar. eexists. split; vm_compute; reflexivity.
Defined.

(** [drop] on the started object, with the handler running, the metadata
    file on disk and a table in the base catalog: the handler is stopped and
    forgets its tables, the file is removed, the catalog is emptied. *)
Lemma drop_quiesces_before_metadata_witness :
  ∃ st' tr,
    drop (AST := string) plain_context populated_state = (Returned tt, st', tr) ∧
    tr = [EShutdown 1 (Returned tt);
          EShutdownFinal 1 (Returned tt);
          EFileExists "/metadata/db.postgresql_replica_metadata" (Returned true);
          EFileRemove "/metadata/db.postgresql_replica_metadata" false (Returned tt);
          EBaseDrop plain_context (Returned tt)] ∧
    st' = mkState started dropped_world ∧
    last tr = Some (EBaseDrop plain_context (Returned tt)).
Proof.
  assert (Hr : (drop (AST := string) plain_context populated_state).1.1 = Returned tt)
    by (vm_compute; reflexivity).
  assert (H3 : (drop (AST := string) plain_context populated_state).2 !! 3 =
            Some (EFileRemove "/metadata/db.postgresql_replica_metadata" false (Returned tt)))
    by (vm_compute; reflexivity).
  destruct (drop (AST := string) plain_context populated_state) as [[r st'] tr] eqn:Hrun.
  simpl in Hr, H3. subst r. exists st', tr. split; [reflexivity|].
  destruct (drop_quiesces_before_metadata plain_context populated_state _ _ _ Hrun)
    as (_ & _ & _ & Hlast & Hcalls & _).
  destruct (Hcalls 1 eq_refl) as (r1 & e1 & Hstop & _ & _ & Hgo). clear Hcalls.
  injection Hstop as <- <-.
  destruct (Hgo eq_refl) as (r2 & e2 & Hfinal & _ & _ & Hgo'). clear Hgo.
  injection Hfinal as <- <-.
  destruct (Hgo' eq_refl) as (rest & Htr & r3 & e3 & Hexists & Hrest). clear Hgo'.
  injection Hexists as <- <-. simpl in Hrest.
  match type of Hrest with
  | if ?b then _ else _ =>
      assert (Hb : b = true) by (vm_compute; reflexivity); rewrite Hb in Hrest
  end.
  destruct Hrest as (r4 & e4 & Hremove & Hrest). injection Hremove as <- <-.
  destruct Hrest as (r5 & e5 & Hdrop & Hrest & _ & Hst). injection Hdrop as <- <-.
  subst tr rest st'.
  split; [reflexivity|]. split; [reflexivity|]. exact (Hlast eq_refl).
Defined.

(** The handler of the small catalog only clears its running flag. *)
Lemma shutdown_idempotent_witness :
  (shutdown_twice (AST := string) started_state).1 = (shutdown (AST := string) started_state).1 ∧
  this (shutdown (AST := string) started_state).1.2 = started ∧
  (shutdown (AST := string) started_state).2 = [EShutdown 1 (Returned tt)].
Proof.
  destruct (shutdown_idempotent (AST := string) started_state) as (Htwice & Hthis & _).
  split; [|split; [exact Hthis|vm_compute; reflexivity]].
  apply Htwice. intros h e e' Hcall. simpl in Hcall. injection Hcall as <-. reflexivity.
Defined.


(** Scenario A of the spec: both remote tables are required.  The handler
    has been given [customers], then [orders], and runs. *)
Lemma startSynchronization_registers_required_witness :
  ∃ st' tr,
    startSynchronization (AST := string) fresh_state = (Returned tt, st', tr) ∧
    dom (tables (this st')) = contents (unordered_set_of ["customers"; "orders"]) ∧
    tables (this st') !! "orders" =
      Some (ReplicaStorage (mkReplica (mkStorageID "db" "orders") Pending)) ∧
    env st' = registered_world.
Proof.
  assert (Hr : (startSynchronization (AST := string) fresh_state).1.1 = Returned tt)
    by (vm_compute; reflexivity).
  assert (Hit : iteration (unordered_set_of ["customers"; "orders"]) = ["customers"; "orders"])
    by (vm_compute; reflexivity).
  destruct (startSynchronization (AST := string) fresh_state) as [[r st'] tr] eqn:Hrun.
  simpl in Hr. subst r. exists st', tr. split; [reflexivity|].
  destruct (startSynchronization_registers_required fresh_state _ _ _ Hrun)
    as (_ & _ & Hdone).
  destruct (Hdone eq_refl)
    as (h & names & adds & _ & _ & _ & _ & _ & Hempty &
        e1 & e2 & e3 & e4 & Hnew & Hfetch & Hturn & Hstart & Hst).
  clear Hdone. injection Hnew as <- <-. injection Hfetch as <- <-.
  destruct (Hempty eq_refl) as [Hdom Hhandle]. clear Hempty.
  split; [exact Hdom|]. split.
  - destruct (Hhandle "orders") as (s & Hs & [->|[Hsync _]]).
    + apply (bool_decide_unpack _). vm_compute. reflexivity.
    + exact Hs.
    + discriminate Hsync.
  - change (iteration (unordered_set_of (remote_tables world)))
      with (iteration (unordered_set_of ["customers"; "orders"])) in Hturn.
    rewrite Hit in Hturn. simpl in Hturn.
    destruct Hturn as (f1 & ea & t1 & eb & t2 & (-> & _) & Hadd1 & Hturn & _).
    injection Hadd1 as <-.
    destruct Hturn as (f2 & ec & t3 & ed & t4 & (-> & _) & Hadd2 & (_ & -> & _) & _).
    injection Hadd2 as <-.
    injection Hstart as <-. rewrite Hst. reflexivity.
Defined.

(** Shard 2 of an unknown number of shards. *)
Lemma constructor_injects_shard_scalars_witness :
  let i := Interpreter.new_with_mutable_context "SELECT 1"
             (Interpreter.mkContext 8 ∅) (Interpreter.mkOptions (Some 2%N) None) in
  Interpreter.special_scalars (Interpreter.context i) !! "_shard_num" =
    Some [Interpreter.mkColumn (Interpreter.mkColumnConst 1 2) Interpreter.DataTypeUInt32
            "_shard_num"] ∧
  Interpreter.special_scalars (Interpreter.context i) !! "_shard_count" = None.
Proof.
  destruct (constructor_injects_shard_scalars "SELECT 1" (Interpreter.mkContext 8 ∅)
              (Interpreter.mkOptions (Some 2%N) None)) as (Hnum & _ & _ & Hcount & _).
  split.
  - exact (Hnum 2%N eq_refl).
  - exact (Hcount eq_refl).
Defined.

(** [getStorage] on the started object: the Loaded handle of [orders] is
    returned, a new handle is made for the Pending [customers]. *)
Lemma getStorage_never_null_witness :
  (getStorage (AST := string) "orders" started_state).1.1 = Returned (Some loaded_orders) ∧
  (getStorage (AST := string) "customers" started_state).1.1
    = Returned (Some (new_handle started "customers")) ∧
  (getStorage (AST := string) "customers" started_state).2 = [].
Proof.
  destruct (getStorage (AST := string) "orders" started_state) as [[r1 st1] t1] eqn:H1.
  destruct (getStorage (AST := string) "customers" started_state) as [[r2 st2] t2] eqn:H2.
  destruct (getStorage_never_null _ _ _ _ _ H1) as (_ & _ & Ho).
  destruct (getStorage_never_null _ _ _ _ _ H2) as (_ & _ & Hc).
  destruct (Ho eq_refl) as (_ & _ & _ & Ho').
  destruct (Hc eq_refl) as (_ & Htr & _ & Hc').
  simpl. split; [|split; [|exact Htr]].
  - apply (Ho' (mkReplica (mkStorageID "db" "orders")
                  (Loaded (OtherStorage "ReplacingMergeTree" (mkStorageID "db" "orders"))))).
    vm_compute. reflexivity.
  - apply (Hc' (mkReplica (mkStorageID "db" "customers") Pending)).
    vm_compute. reflexivity.
Defined.

(** The enumeration is defined on the started object. *)
Lemma getTablesIterator_defined_iff_handles_witness :
  is_returned (getTablesIterator (Exn := string) (AST := string) started_state).1.1 = true.
Proof.
  destruct (getTablesIterator_defined_iff_handles (Exn := string) (AST := string)
              started_state) as (_ & _ & [_ Hdef] & _).
  apply Hdef. apply (bool_decide_unpack _). vm_compute. reflexivity.
Defined.

(** After [drop], [orders] is still returned by a lookup. *)
Lemma lookups_unchanged_by_other_calls_witness :
  (tryGetTable (AST := string) "orders" plain_context
     (state_after (CallDrop plain_context) started_state)).1.1
    = Returned (Some loaded_orders).
Proof.
  destruct (lookups_unchanged_by_other_calls (AST := string) (CallDrop plain_context)
              started_state) as (_ & Hlookup & _).
  { intros context f1 f2. discriminate. }
  rewrite (Hlookup "orders" plain_context eq_refl). vm_compute. reflexivity.
Defined.

(** The failing [startup] is the sixth and last entry of [loadStoredObjects]. *)
Lemma no_member_function_catches_witness :
  outcome_of (AST := string) (CallLoadStoredObjects plain_context false false) failing_state
    = Threw "startup failed" ∧
  length (transcript_of (AST := string) (CallLoadStoredObjects plain_context false false)
            failing_state) = 6.
Proof.
  destruct (no_member_function_catches (AST := string)
              (CallLoadStoredObjects plain_context false false) failing_state 5
              (EStartup 1 (Threw "startup failed"))) as [Hout Hlen].
  - vm_compute. reflexivity.
  - discriminate.
  - split; [exact Hout|]. symmetry. exact Hlen.
Defined.

(** [drop] on the started object removes the file it has just found. *)
Lemma drop_removes_only_tested_file_witness :
  ∃ st' tr,
    drop (AST := string) plain_context started_state = (Returned tt, st', tr) ∧
    this st' = started ∧
    tr !! 2 = Some (EFileExists "/metadata/db.postgresql_replica_metadata" (Returned true)).
Proof.
  assert (Hr : (drop (AST := string) plain_context started_state).1.1 = Returned tt)
    by (vm_compute; reflexivity).
  assert (H3 : (drop (AST := string) plain_context started_state).2 !! 3 =
            Some (EFileRemove "/metadata/db.postgresql_replica_metadata" false (Returned tt)))
    by (vm_compute; reflexivity).
  destruct (drop (AST := string) plain_context started_state) as [[r st'] tr] eqn:Hrun.
  simpl in Hr, H3. subst r. exists st', tr. split; [reflexivity|].
  destruct (drop_removes_only_tested_file plain_context started_state _ _ _ Hrun)
    as (Hthis & Hremove & _).
  split; [exact Hthis|].
  destruct (Hremove 3 _ _ _ H3) as (_ & j & Hj & Htest).
  injection Hj as <-. exact Htest.
Defined.

(** The handler whose [startup] throws stays set, with [orders] registered. *)
Lemma startSynchronization_failure_leaves_witness :
  ∃ st' tr,
    startSynchronization (AST := string) failing_state = (Threw "startup failed", st', tr) ∧
    replication_handler (this st') = Some 1.
Proof.
  assert (Hr : (startSynchronization (AST := string) failing_state).1.1
                 = Threw "startup failed") by (vm_compute; reflexivity).
  destruct (startSynchronization (AST := string) failing_state) as [[r st'] tr] eqn:Hrun.
  simpl in Hr. subst r. exists st', tr. split; [reflexivity|].
  destruct (startSynchronization_failure_leaves _ _ _ _ Hrun) as (_ & Hset & _).
  destruct (Hset 1 failing_world) as [Hh _]; [reflexivity|exact Hh].
Defined.

(** Scenario A again: six entries for two tables, [customers] before
    [orders] as the set yields them. *)
Lemma startSynchronization_fresh_transcript_witness :
  ∃ st' tr,
    startSynchronization (AST := string) fresh_state = (Returned tt, st', tr) ∧
    length tr = 6 ∧
    tr = [EHandlerNew (handler_arguments fresh) (Returned 1);
          EFetchRequiredTables 1 (mkConnection "host=pg")
            (Returned (unordered_set_of ["customers"; "orders"]));
          EAddStorage 1 "customers" (Some (mkReplica (mkStorageID "db" "customers") Pending))
            (Returned tt);
          EAddStorage 1 "orders" (Some (mkReplica (mkStorageID "db" "orders") Pending))
            (Returned tt);
          ELogTrace "Loaded {} tables. Starting synchronization" 2;
          EStartup 1 (Returned tt)] ∧
    tables (this st') !! "orders" = Some (new_handle fresh "orders") ∧
    env st' = registered_world.
Proof.
  assert (Hr : (startSynchronization (AST := string) fresh_state).1.1 = Returned tt)
    by (vm_compute; reflexivity).
  assert (Hit : iteration (unordered_set_of ["customers"; "orders"]) = ["customers"; "orders"])
    by (vm_compute; reflexivity).
  destruct (startSynchronization (AST := string) fresh_state) as [[r st'] tr] eqn:Hrun.
  simpl in Hr. subst r. exists st', tr. split; [reflexivity|].
  destruct (startSynchronization_fresh_transcript fresh_state _ _ eq_refl eq_refl Hrun)
    as (h & names & e1 & e2 & e3 & Hnew & Hfetch & Hturn & Hstart & _ & Htr & Hlen & Hlook).
  injection Hnew as <- <-. injection Hfetch as <- <-.
  change (iteration (unordered_set_of (remote_tables world)))
    with (iteration (unordered_set_of ["customers"; "orders"])) in *.
  rewrite Hit in *. simpl in Hturn.
  destruct Hturn as (ea & Hadd1 & eb & Hadd2 & ->).
  injection Hadd1 as <-. injection Hadd2 as <-. injection Hstart as Hstart.
  split; [exact Hlen|]. split; [exact Htr|]. split.
  - rewrite Hlook. reflexivity.
  - rewrite <- Hstart. reflexivity.
Defined.

(** Scenario A: the enumeration is empty until a table is loaded. *)
Lemma nothing_visible_after_startSynchronization_witness :
  ∃ st' tr,
    startSynchronization (AST := string) fresh_state = (Returned tt, st', tr) ∧
    getTablesIterator (Exn := string) (AST := string) st'
      = (Returned (mkSnapshot ∅ "db"), st', []) ∧
    tryGetTable (AST := string) "orders" plain_context st' = (Returned None, st', []).
Proof.
  assert (Hr : (startSynchronization (AST := string) fresh_state).1.1 = Returned tt)
    by (vm_compute; reflexivity).
  destruct (startSynchronization (AST := string) fresh_state) as [[r st'] tr] eqn:Hrun.
  simpl in Hr. subst r. exists st', tr. split; [reflexivity|].
  destruct (nothing_visible_after_startSynchronization fresh_state _ _ eq_refl eq_refl Hrun)
    as [Hiter Hlookup].
  split; [exact Hiter|]. exact (Hlookup "orders" plain_context eq_refl).
Defined.

(** The plain [orders] table of the catalog gets into the table map. *)
Lemma register_table_foreign_storage_witness :
  ∃ st',
    register_table (AST := string) 1 "orders" synchronizing_state
      = (Returned tt, st',
         [EBaseTryGetTable "orders" synchronization_context (Returned (Some plain_orders));
          EAddStorage 1 "orders" None (Returned tt)]) ∧
    tryGetTable (AST := string) "orders" plain_context st' = (Undefined, st', []).
Proof.
  destruct (register_table_foreign_storage (AST := string) 1 "orders" synchronizing_state
              "ReplacingMergeTree" (mkStorageID "db" "orders") world_with_orders
              (mkWorld ∅ (<["orders" := plain_orders]> ∅) ["orders"] ["orders"] false None))
    as (Hrun & Hlookup & _).
  - vm_compute. reflexivity.
  - vm_compute. reflexivity.
  - vm_compute. reflexivity.
  - eexists. split; [exact Hrun|]. apply Hlookup. reflexivity.
Defined.

(** [loadStoredObjects] on the new object. *)
Lemma loadStoredObjects_registers_only_handles_witness :
  registry_of_handles
    (tables (this (loadStoredObjects (AST := string) plain_context false false
                     fresh_state).1.2)).
Proof.
  destruct (loadStoredObjects (AST := string) plain_context false false fresh_state)
    as [[r st'] tr] eqn:Hrun.
  destruct (loadStoredObjects_registers_only_handles _ _ _ _ _ _ _ Hrun) as [Hreg _].
  - reflexivity.
  - apply (bool_decide_unpack _). vm_compute. reflexivity.
  - exact Hreg.
Defined.

(** The new object, loaded, then dropped. *)
Lemma reachable_lookups_defined_witness :
  ∃ result,
    tryGetTable (AST := string) "orders" plain_context
      (state_after (CallDrop plain_context)
         (state_after (CallLoadStoredObjects plain_context false false) fresh_state))
    = (Returned result,
       state_after (CallDrop plain_context)
         (state_after (CallLoadStoredObjects plain_context false false) fresh_state), []).
Proof.
  destruct (reachable_lookups_defined (Exn := string) (AST := string)
              (state_after (CallDrop plain_context)
                 (state_after (CallLoadStoredObjects plain_context false false) fresh_state)))
    as [Hlookup _].
  - apply reachable_call, reachable_call.
    apply (reachable_Ordinary (AST := string) plain_context "/metadata/db" "db" "postgres"
             (mkConnection "host=pg") (mkSettings (mkSettingUInt64 false 0) "orders,customers")
             world).
    reflexivity.
  - exact (Hlookup "orders" plain_context eq_refl).
Defined.

(** The object built for [DatabaseAtomic]: both tables are given to the
    handler, which is then never started. *)
Lemma startSynchronization_needs_log_witness :
  log (this atomic_state) = None ∧
  ∃ st' tr,
    startSynchronization (AST := string) atomic_state = (Undefined, st', tr) ∧
    Forall (λ ev, is_startup_event ev = false) tr ∧
    replication_handler (this st') = Some 1 ∧
    registered (env st') = ["customers"; "orders"] ∧
    running (env st') = false.
Proof.
  split; [reflexivity|].
  destruct (startSynchronization_needs_log (AST := string) atomic_state eq_refl)
    as (Hsync & _).
  pose (st0 := mkState (set_replication_handler (Some 1) atomic) world).
  assert (Hr : (for_each ["customers"; "orders"] (register_table (AST := string) 1) st0).1.1
                 = Returned tt) by (vm_compute; reflexivity).
  assert (Hh : replication_handler
                 (this (for_each ["customers"; "orders"]
                          (register_table (AST := string) 1) st0).1.2) = Some 1)
    by (vm_compute; reflexivity).
  assert (Hg : registered
                 (env (for_each ["customers"; "orders"]
                         (register_table (AST := string) 1) st0).1.2)
                 = ["customers"; "orders"]) by (vm_compute; reflexivity).
  assert (Hn : running
                 (env (for_each ["customers"; "orders"]
                         (register_table (AST := string) 1) st0).1.2) = false)
    by (vm_compute; reflexivity).
  destruct (for_each ["customers"; "orders"] (register_table (AST := string) 1) st0)
    as [[r3 st3] adds] eqn:Hloop.
  simpl in Hr, Hh, Hg, Hn. subst r3.
  destruct (startSynchronization (AST := string) atomic_state) as [[r st'] tr] eqn:Hrun.
  destruct (Hsync _ _ _ eq_refl) as (_ & Hquiet & _ & Hall).
  destruct (Hall 1 world (unordered_set_of (remote_tables world)) world st3 adds
              eq_refl eq_refl Hloop) as (-> & -> & _).
  exists st3, tr. split; [reflexivity|]. split; [exact Hquiet|].
  split; [exact Hh|]. split; [exact Hg|exact Hn].
Defined.

(** A subquery without shard options under a query of shard 2 of 4. *)
Lemma nested_interpreter_inherits_shard_scalars_witness :
  let outer := Interpreter.new_with_mutable_context "SELECT 1"
                 (Interpreter.mkContext 8 ∅) (Interpreter.mkOptions (Some 2%N) (Some 4%N)) in
  let inner := Interpreter.new_with_context "SELECT 2" (Interpreter.context outer)
                 (Interpreter.mkOptions None None) in
  Interpreter.special_scalars (Interpreter.context inner) !! "_shard_num"
    = Some (Interpreter.scalar_block "_shard_num" 2) ∧
  Interpreter.getMaxStreams inner = 8%N.
Proof.
  destruct (nested_interpreter_inherits_shard_scalars "SELECT 1" "SELECT 2"
              (Interpreter.mkContext 8 ∅) (Interpreter.mkOptions (Some 2%N) (Some 4%N))
              (Interpreter.mkOptions None None))
    as (_ & Hnum & _ & _ & _ & Hstreams & _).
  split; [exact (Hnum 2%N eq_refl eq_refl)|exact Hstreams].
Defined.

End Runs.
